(** * terraform-provider-jenkins: the config.xml template object

    A shallow embedding of [template.go]: the [ConfigXMLTemplate] value, its
    constructor [NewConfigXMLTemplate] (hash extraction and source
    classification), the identity accessors and [BindTo].

    Go strings are byte sequences; they are modelled by [string] (a list of
    8-bit [ascii] characters), so [len], slicing and the prefix tests work on
    bytes as they do in Go.  The calls to [log.Printf] and [fmt.Println] only
    write diagnostics and never influence a returned value; they are left out. *)

From Stdlib Require Import ZArith NArith Ascii.
From stdpp Require Import base option list gmap strings.

Local Open Scope Z_scope.

(** ** Go strings *)

Module Strings.

(** [len(s)] *)
Definition len (s : string) : nat := String.length s.

(** [s[:n]] for [n <= len(s)] *)
Fixpoint take (n : nat) (s : string) : string :=
  match n, s with
  | S k, String c t => String c (take k t)
  | _, _ => ""
  end.

(** [s[n:]] for [n <= len(s)] *)
Fixpoint drop (n : nat) (s : string) : string :=
  match n, s with
  | S k, String _ t => drop k t
  | _, _ => s
  end.

(** [strings.HasPrefix(s, prefix)] *)
Fixpoint HasPrefix (s prefix : string) {struct prefix} : bool :=
  match prefix, s with
  | "", _ => true
  | String p ps, String c t => if decide (c = p) then HasPrefix t ps else false
  | String _ _, "" => false
  end.

(** [strings.Replace(s, old, new, 1)] for a non-empty [old]: the first
    occurrence of [old], scanning from the left, is replaced by [new]. *)
Fixpoint ReplaceFirst (s old new : string) : string :=
  if HasPrefix s old then new +:+ drop (len old) s
  else match s with
       | "" => ""
       | String c t => String c (ReplaceFirst t old new)
       end.

(** [strings.Split(s, sep)] for a non-empty [sep]: [cur] is the segment
    read so far, [skip] the number of bytes of a separator still to pass. *)
Fixpoint split_go (sep : string) (skip : nat) (cur s : string) : list string :=
  match s with
  | "" => [cur]
  | String c t =>
      match skip with
      | S k => split_go sep k cur t
      | O =>
          if HasPrefix s sep
          then cur :: split_go sep (Nat.pred (len sep)) "" t
          else split_go sep 0 (cur +:+ String c "") t
      end
  end.

Definition Split (s sep : string) : list string := split_go sep 0 "" s.

(** [strings.ToLower] on its ASCII path, byte by byte: ['A'..'Z'] are moved
    to ['a'..'z'], every other byte is kept.  (Go maps non-ASCII text rune
    by rune; the only caller passes the output of [hex.EncodeToString].) *)
Definition lower (c : ascii) : ascii :=
  let n := N_of_ascii c in
  if ((65 <=? n) && (n <=? 90))%N then ascii_of_N (n + 32) else c.

Fixpoint ToLower (s : string) : string :=
  match s with
  | "" => ""
  | String c t => String (lower c) (ToLower t)
  end.

(** All the suffixes of [s], longest first: [s[0:]], [s[1:]], ..., [""]. *)
Fixpoint tails (s : string) : list string :=
  s :: match s with
       | "" => []
       | String _ t => tails t
       end.

Fixpoint all (p : ascii -> bool) (s : string) : bool :=
  match s with
  | "" => true
  | String c t => p c && all p t
  end.

End Strings.

(** ** Regular expressions (Go's [regexp], the fragment the program uses)

    Matching is by bytes.  Go reads the text rune by rune, which only changes
    how many bytes one [.] takes: the other atoms of the pattern of this
    program are ASCII, and a match may start at any of them. *)

Module Regexp.

(** The abstract syntax of the patterns: [.], a literal byte, a class of
    ranges [[a-f0-9]], concatenation, [e*], [e{n}] and [$]. *)
Inductive regex : Type :=
| Dot
| Lit (c : ascii)
| Class (ranges : list (ascii * ascii))
| Cat (e1 e2 : regex)
| Star (e : regex)
| Repeat (n : nat) (e : regex)
| EndText.

Definition in_range (c : ascii) (r : ascii * ascii) : bool :=
  ((N_of_ascii (fst r) <=? N_of_ascii c) && (N_of_ascii c <=? N_of_ascii (snd r)))%N.

Definition in_class (ranges : list (ascii * ascii)) (c : ascii) : bool :=
  existsb (in_range c) ranges.

(** [.] matches any character but a line feed (no [s] flag). *)
Definition not_newline (c : ascii) : bool :=
  if decide (c = "010"%char) then false else true.

Definition step (p : ascii -> bool) (s : string) : list string :=
  match s with
  | String c t => if p c then [t] else []
  | "" => []
  end.

Fixpoint iter (n : nat) (f : string -> list string) (s : string) : list string :=
  match n with
  | O => [s]
  | S k => flat_map (iter k f) (f s)
  end.

(** Zero or more rounds of [f]; a round that consumes nothing is not
    repeated, so [fuel = len s] rounds are enough. *)
Fixpoint star (fuel : nat) (f : string -> list string) (s : string) : list string :=
  s :: match fuel with
       | O => []
       | S k =>
           flat_map
             (fun s' => if (Strings.len s' <? Strings.len s)%nat then star k f s' else [])
             (f s)
       end.

(** [run e s]: every remainder [s'] such that [e] matches the part of [s]
    before [s'].  [$] holds at the end of the text only (no [m] flag). *)
Fixpoint run (e : regex) (s : string) : list string :=
  match e with
  | Dot => step not_newline s
  | Lit c => step (fun x => if decide (x = c) then true else false) s
  | Class ranges => step (in_class ranges) s
  | Cat e1 e2 => flat_map (run e2) (run e1 s)
  | Star e1 => star (Strings.len s) (run e1) s
  | Repeat n e1 => iter n (run e1) s
  | EndText => match s with "" => [""] | _ => [] end
  end.

(** [re.MatchString(s)]: the search is unanchored, a match may start at
    any position of [s]. *)
Definition MatchString (e : regex) (s : string) : bool :=
  existsb (fun t => match run e t with [] => false | _ => true end) (Strings.tails s).

End Regexp.

(** The pattern [.*@[a-f0-9]{32}$] of [NewConfigXMLTemplate]. *)
Definition lower_hex : list (ascii * ascii) :=
  [("a"%char, "f"%char); ("0"%char, "9"%char)].

Definition re : Regexp.regex :=
  Regexp.Cat (Regexp.Star Regexp.Dot)
    (Regexp.Cat (Regexp.Lit "@")
       (Regexp.Cat (Regexp.Repeat 32 (Regexp.Class lower_hex)) Regexp.EndText)).

(** Lines 34-40: the candidate [source] and the recorded hash. *)
Definition extract (input : string) : string * string :=
  if Regexp.MatchString re input
  then (Strings.take (Strings.len input - 33)%nat input,
        Strings.drop (Strings.len input - 32)%nat input)
  else (input, "").

(** ** [crypto/md5] and [encoding/hex]

    Bytes are integers in [0, 256), 32-bit words integers in [0, 2^32) with
    the wrap-around written out. *)

Module MD5.

Definition add32 (a b : Z) : Z := (a + b) mod 2 ^ 32.
Definition not32 (a : Z) : Z := Z.lxor a 0xffffffff.
Definition rotl32 (x : Z) (s : Z) : Z :=
  Z.lor (Z.shiftl x s mod 2 ^ 32) (Z.shiftr x (32 - s)).

(** The sine table, [floor (2^32 * |sin (i + 1)|)]. *)
Definition K : list Z :=
  [ 0xd76aa478; 0xe8c7b756; 0x242070db; 0xc1bdceee;
    0xf57c0faf; 0x4787c62a; 0xa8304613; 0xfd469501;
    0x698098d8; 0x8b44f7af; 0xffff5bb1; 0x895cd7be;
    0x6b901122; 0xfd987193; 0xa679438e; 0x49b40821;
    0xf61e2562; 0xc040b340; 0x265e5a51; 0xe9b6c7aa;
    0xd62f105d; 0x02441453; 0xd8a1e681; 0xe7d3fbc8;
    0x21e1cde6; 0xc33707d6; 0xf4d50d87; 0x455a14ed;
    0xa9e3e905; 0xfcefa3f8; 0x676f02d9; 0x8d2a4c8a;
    0xfffa3942; 0x8771f681; 0x6d9d6122; 0xfde5380c;
    0xa4beea44; 0x4bdecfa9; 0xf6bb4b60; 0xbebfbc70;
    0x289b7ec6; 0xeaa127fa; 0xd4ef3085; 0x04881d05;
    0xd9d4d039; 0xe6db99e5; 0x1fa27cf8; 0xc4ac5665;
    0xf4292244; 0x432aff97; 0xab9423a7; 0xfc93a039;
    0x655b59c3; 0x8f0ccc92; 0xffeff47d; 0x85845dd1;
    0x6fa87e4f; 0xfe2ce6e0; 0xa3014314; 0x4e0811a1;
    0xf7537e82; 0xbd3af235; 0x2ad7d2bb; 0xeb86d391 ].

(** The per-round rotations. *)
Definition shifts : list Z :=
  [ 7; 12; 17; 22; 7; 12; 17; 22; 7; 12; 17; 22; 7; 12; 17; 22;
    5; 9; 14; 20; 5; 9; 14; 20; 5; 9; 14; 20; 5; 9; 14; 20;
    4; 11; 16; 23; 4; 11; 16; 23; 4; 11; 16; 23; 4; 11; 16; 23;
    6; 10; 15; 21; 6; 10; 15; 21; 6; 10; 15; 21; 6; 10; 15; 21 ].

Record digest : Type := Digest { dA : Z; dB : Z; dC : Z; dD : Z }.

Definition init : digest :=
  Digest 0x67452301 0xefcdab89 0x98badcfe 0x10325476.

(** The little-endian word number [g] of a 64-byte block. *)
Definition word (block : list Z) (g : nat) : Z :=
  nth (4 * g) block 0
  + Z.shiftl (nth (4 * g + 1) block 0) 8
  + Z.shiftl (nth (4 * g + 2) block 0) 16
  + Z.shiftl (nth (4 * g + 3) block 0) 24.

Definition round (block : list Z) (st : digest) (i : nat) : digest :=
  let '(Digest a b c d) := st in
  let '(f, g) :=
    if (i <? 16)%nat then (Z.lor (Z.land b c) (Z.land (not32 b) d), i)
    else if (i <? 32)%nat then (Z.lor (Z.land d b) (Z.land (not32 d) c), (5 * i + 1) mod 16)%nat
    else if (i <? 48)%nat then (Z.lxor (Z.lxor b c) d, (3 * i + 5) mod 16)%nat
    else (Z.lxor c (Z.lor b (not32 d)), (7 * i) mod 16)%nat in
  let f' := add32 (add32 (add32 f a) (nth i K 0)) (word block g) in
  Digest d (add32 b (rotl32 f' (nth i shifts 0))) b c.

Definition compress (st : digest) (block : list Z) : digest :=
  let '(Digest a b c d) := st in
  let '(Digest a' b' c' d') := foldl (round block) st (seq 0 64) in
  Digest (add32 a a') (add32 b b') (add32 c c') (add32 d d').

(** The [n] low bytes of [x], least significant first. *)
Fixpoint le_bytes (n : nat) (x : Z) : list Z :=
  match n with
  | O => []
  | S k => Z.land x 255 :: le_bytes k (Z.shiftr x 8)
  end.

(** Padding: a [0x80] byte, zeros up to 56 modulo 64, the bit length. *)
Definition pad (data : list Z) : list Z :=
  let n := length data in
  data ++ [128] ++ replicate ((119 - n mod 64) mod 64)%nat 0
       ++ le_bytes 8 ((8 * Z.of_nat n) mod 2 ^ 64).

Fixpoint blocks (fuel : nat) (l : list Z) : list (list Z) :=
  match fuel, l with
  | S k, _ :: _ => firstn 64 l :: blocks k (skipn 64 l)
  | _, _ => []
  end.

(** [md5.Sum(data)]: the 16 bytes of the digest. *)
Definition Sum (data : list Z) : list Z :=
  let p := pad data in
  let '(Digest a b c d) := foldl compress init (blocks (length p) p) in
  le_bytes 4 a ++ le_bytes 4 b ++ le_bytes 4 c ++ le_bytes 4 d.

End MD5.

Module Hex.

Definition hextable : string := "0123456789abcdef".

(** [hextable[i]] *)
Definition index (i : Z) : ascii :=
  default "000"%char (String.get (Z.to_nat i) hextable).

(** [hex.EncodeToString(src)] *)
Fixpoint EncodeToString (src : list Z) : string :=
  match src with
  | [] => ""
  | v :: rest =>
      String (index (Z.shiftr v 4)) (String (index (Z.land v 0x0f)) (EncodeToString rest))
  end.

End Hex.

(** [[]byte(s)] *)
Fixpoint bytes_of (s : string) : list Z :=
  match s with
  | "" => []
  | String c t => Z.of_N (N_of_ascii c) :: bytes_of t
  end.

Definition md5_hex (s : string) : string :=
  Strings.ToLower (Hex.EncodeToString (MD5.Sum (bytes_of s))).

(** ** Errors, the outside world and the template object *)

(** A Go [error], identified by its message ([fmt.Errorf] without verbs). *)
Record error : Type := Errorf { Error : string }.

(** [fmt.Sprintf("%s@%s", a, b)] *)
Definition Sprintf_s_at_s (a b : string) : string := a +:+ "@" +:+ b.

(** The collaborators of the constructor: [http.Get], [ioutil.ReadAll] on the
    body of a response, and [ioutil.ReadFile].  A world is a fixed function
    of the address: asking twice gives the same bytes. *)
Record World : Type := {
  Response : Type;
  http_Get : string -> Response + error;
  ioutil_ReadAll : Response -> string + error;
  ioutil_ReadFile : string -> string + error
}.

(** The calls a resolution makes to its collaborators, in order. *)
Inductive IOCall : Type :=
| CallHttpGet (url : string)
| CallReadAll (url : string)
| CallReadFile (path : string).

(** [type ConfigXMLTemplate struct] *)
Record ConfigXMLTemplate : Type := {
  source : string;
  data : string;
  hash : string
}.

(** Lines 42-72: the three kinds of candidate.  The result is the pair Go
    returns, a pointer that may be [nil] and an error, next to the calls
    that were made. *)
Definition resolve (w : World) (src recorded : string)
  : list IOCall * (option ConfigXMLTemplate * option error) :=
  if Strings.HasPrefix src "http://" || Strings.HasPrefix src "https://" then
    match http_Get w src with
    | inr err => ([CallHttpGet src], (None, Some err))
    | inl response =>
        match ioutil_ReadAll w response with
        | inr err => ([CallHttpGet src; CallReadAll src], (None, Some err))
        | inl body =>
            ([CallHttpGet src; CallReadAll src],
             (Some {| source := src; data := body; hash := recorded |}, None))
        end
    end
  else if Strings.HasPrefix src "file://" then
    let from := Strings.ReplaceFirst src "file://" "" in
    match ioutil_ReadFile w from with
    | inr err => ([CallReadFile from], (None, Some err))
    | inl bytes =>
        ([CallReadFile from],
         (Some {| source := src; data := bytes; hash := recorded |}, None))
    end
  else ([], (Some {| source := ""; data := src; hash := recorded |}, None)).

(** [func NewConfigXMLTemplate(input string)], returning a
    [ConfigXMLTemplate] pointer and an [error] *)
Definition NewConfigXMLTemplate (w : World) (input : string)
  : list IOCall * (option ConfigXMLTemplate * option error) :=
  let '(src, recorded) := extract input in
  resolve w src recorded.

Definition invalid_object : error := Errorf "Invalid config.xml template object".

(** [func (c *ConfigXMLTemplate) ComputedHash() (string, error)] *)
Definition ComputedHash (c : option ConfigXMLTemplate) : string * option error :=
  match c with
  | None => ("", Some invalid_object)
  | Some t => (md5_hex (data t), None)
  end.

(** [func (c *ConfigXMLTemplate) RecordedHash() (string, error)] *)
Definition RecordedHash (c : option ConfigXMLTemplate) : string * option error :=
  match c with
  | None => ("", Some invalid_object)
  | Some t => (hash t, None)
  end.

(** [func (c *ConfigXMLTemplate) GetTemplateID() (string, error)] *)
Definition GetTemplateID (c : option ConfigXMLTemplate) : string * option error :=
  match c with
  | None => ("", Some invalid_object)
  | Some t =>
      if (Strings.len (source t) =? 0)%nat then (data t, None)
      else
        let '(h, _) := ComputedHash c in
        (Sprintf_s_at_s (source t) h, None)
  end.

(** ** The resource data and the job handed to the template engine *)

(** The dynamically typed values ([interface{}]) a [schema.ResourceData]
    hands out. *)
#[warnings="-register-all"]
Inductive Value : Type :=
| VNil
| VString (s : string)
| VBool (b : bool)
| VList (l : list Value)
| VMap (m : gmap string Value).

(** Type assertions [v.(T)]; [None] stands for the run-time panic of a
    failed assertion. *)
Definition as_string (v : Value) : option string :=
  match v with VString s => Some s | _ => None end.
Definition as_bool (v : Value) : option bool :=
  match v with VBool b => Some b | _ => None end.
Definition as_list (v : Value) : option (list Value) :=
  match v with VList l => Some l | _ => None end.
Definition as_map (v : Value) : option (gmap string Value) :=
  match v with VMap m => Some m | _ => None end.

(** [*schema.ResourceData], by the two methods [BindTo] calls. *)
Record ResourceData : Type := {
  Get : string -> Value;
  GetOk : string -> Value * bool
}.

(** [type job struct] *)
Record job : Type := {
  Name : string;
  Description : string;
  DisplayName : string;
  TriggerRemotelyToken : string;
  Disabled : bool;
  MasterMergeTriggering : bool;
  Permissions : list string;
  Parameters : list (gmap string string);
  BranchPushTriggering : gmap string string;
  PrTriggeringGhpr : gmap string string;
  PrTriggeringGhIntegration : gmap string string;
  Jenkinsfile : gmap string string;
  Configuration : gmap string string
}.

(** [if value, ok := d.GetOk(key); ok { slot = coerce(value) }]: the slot
    keeps [dflt] when the key is not set. *)
Definition field {A : Type} (d : ResourceData) (key : string)
    (coerce : Value -> option A) (dflt : A) : option A :=
  let '(value, ok) := GetOk d key in
  if ok then coerce value else Some dflt.

(** [for _, v := range elems { dst = append(dst, v) }] *)
Definition append_all {A : Type} (dst elems : list A) : list A :=
  foldl (fun acc v => acc ++ [v]) dst elems.

(** Lines 177-181. *)
Definition split_permissions (value : Value) : option (list string) :=
  value ← as_string value;
  Some (append_all [] (Strings.Split value ",")).

(** [for k, v := range value { dst[k] = v.(string) }] *)
Definition copy_entries (dst : gmap string string) (value : gmap string Value)
  : option (gmap string string) :=
  map_fold (fun k v acc => dst ← acc; s ← as_string v; Some (<[k := s]> dst))
    (Some dst) value.

Definition string_map (value : Value) : option (gmap string string) :=
  value ← as_map value;
  copy_entries ∅ value.

(** [if t, ok := configRaw[key]; ok { config[Key] = t.(string) }] *)
Definition copy_key (configRaw : gmap string Value) (key Key : string)
    (config : gmap string string) : option (gmap string string) :=
  match configRaw !! key with
  | Some t => s ← as_string t; Some (<[Key := s]> config)
  | None => Some config
  end.

(** Lines 206-223: one record of the [parameter] list. *)
Definition adapt_parameter (v : Value) : option (gmap string string) :=
  configRaw ← as_map v;
  config ← copy_key configRaw "type" "Type" ∅;
  config ← copy_key configRaw "name" "Name" config;
  config ← copy_key configRaw "description" "Description" config;
  copy_key configRaw "default" "Default" config.

(** Lines 203-226: the loop over the records, appending to [j.Parameters]. *)
Fixpoint adapt_parameters (dst : list (gmap string string)) (rawValue : list Value)
  : option (list (gmap string string)) :=
  match rawValue with
  | [] => Some dst
  | v :: rest => config ← adapt_parameter v; adapt_parameters (dst ++ [config]) rest
  end.

Definition parameter_list (value : Value) : option (list (gmap string string)) :=
  rawValue ← as_list value;
  adapt_parameters [] rawValue.

(** Lines 150-239: the job built from the resource data; [None] when a type
    assertion panics. *)
Definition Adapt (d : ResourceData) : option job :=
  name ← as_string (Get d "name");
  displayName ← field d "display_name" as_string "";
  description ← field d "description" as_string "";
  token ← field d "trigger_remotely_token" as_string "";
  disabled ← field d "disabled" as_bool false;
  masterMerge ← field d "master_merge_triggering" as_bool false;
  permissions ← field d "permissions" split_permissions [];
  configuration ← field d "configuration" string_map ∅;
  ghpr ← field d "pr_triggering_ghpr" string_map ∅;
  ghIntegration ← field d "pr_triggering_gh_integration" string_map ∅;
  parameters ← field d "parameter" parameter_list [];
  branchPush ← field d "branch_push_triggering" string_map ∅;
  jenkinsfile ← field d "jenkinsfile" string_map ∅;
  Some {| Name := name;
          Description := description;
          DisplayName := displayName;
          TriggerRemotelyToken := token;
          Disabled := disabled;
          MasterMergeTriggering := masterMerge;
          Permissions := permissions;
          Parameters := parameters;
          BranchPushTriggering := branchPush;
          PrTriggeringGhpr := ghpr;
          PrTriggeringGhIntegration := ghIntegration;
          Jenkinsfile := jenkinsfile;
          Configuration := configuration |}.

(** [html/template], a black box: [Parse] gives a template or an error;
    [Execute] gives what it wrote to the buffer and, maybe, an error. *)
Record Engine : Type := {
  Template : Type;
  Parse : string -> Template + error;
  Execute : Template -> job -> string * option error
}.

(** A call either returns or panics. *)
Inductive Outcome (A : Type) : Type :=
| Returned (a : A)
| Panicked.
Arguments Returned {A} a.
Arguments Panicked {A}.

(** [func (c *ConfigXMLTemplate) BindTo(d *schema.ResourceData) (string, error)] *)
Definition BindTo (eng : Engine) (c : option ConfigXMLTemplate) (d : ResourceData)
  : Outcome (string * option error) :=
  match c with
  | None => Returned ("", Some invalid_object)
  | Some t =>
      match Parse eng (data t) with
      | inr err => Returned ("", Some err)
      | inl tpl =>
          match Adapt d with
          | None => Panicked
          | Some j =>
              match Execute eng tpl j with
              | (_, Some err) => Returned ("", Some err)
              | (xml, None) => Returned (xml, None)
              end
          end
      end
  end.

(** ** Predicates of the statements *)

(** The sixteen lowercase hexadecimal digits. *)
Definition hex_digits : list ascii :=
  ["0"; "1"; "2"; "3"; "4"; "5"; "6"; "7"; "8"; "9"; "a"; "b"; "c"; "d"; "e"; "f"]%char.

Definition is_hex_digit (c : ascii) : bool := existsb (Ascii.eqb c) hex_digits.

(** [h] is exactly 32 lowercase hexadecimal characters. *)
Definition is_hash (h : string) : Prop :=
  Strings.len h = 32%nat /\ Strings.all is_hex_digit h = true.

(** The reference ends in [@] followed by a hash. *)
Definition ends_in_hash (input : string) : Prop :=
  exists pre h, input = pre +:+ "@" +:+ h /\ is_hash h.

Definition is_byte (v : Z) : Prop := 0 <= v < 256.

Definition hex_pair (n : nat) : bool :=
  is_hex_digit (Hex.index (Z.shiftr (Z.of_nat n) 4))
  && is_hex_digit (Hex.index (Z.land (Z.of_nat n) 0x0f)).

(** [s] holds no comma. *)
Definition comma_free (s : string) : Prop :=
  Strings.all (fun c => if decide (c = ","%char) then false else true) s = true.

(** The sub-keys [BindTo] reads in a record, each with the key it writes. *)
Definition recognized : list (string * string) :=
  [("type", "Type"); ("name", "Name"); ("description", "Description"); ("default", "Default")].

Definition parameter_keys : gset string :=
  {[ "Type"; "Name"; "Description"; "Default" ]}.

(** ** Sample worlds, resources and engines *)

(** A world without network and with an empty disk. *)
Definition offline : World := {|
  Response := unit;
  http_Get := fun _ => inr (Errorf "no route to host");
  ioutil_ReadAll := fun _ => inr (Errorf "unexpected EOF");
  ioutil_ReadFile := fun _ => inr (Errorf "no such file or directory")
|}.

(** A world whose disk holds one file. *)
Definition one_file : World := {|
  Response := unit;
  http_Get := fun _ => inr (Errorf "no route to host");
  ioutil_ReadAll := fun _ => inr (Errorf "unexpected EOF");
  ioutil_ReadFile := fun path =>
    if decide (path = "/tmp/t.xml") then inl "<a/>"
    else inr (Errorf "no such file or directory")
|}.

Definition t_xml : ConfigXMLTemplate :=
  {| source := "file:///tmp/t.xml"; data := "<a/>"; hash := "" |}.

(** A resource with a name and a permission string. *)
Definition with_permissions : ResourceData := {|
  Get := fun key => if decide (key = "name") then VString "deploy" else VNil;
  GetOk := fun key =>
    if decide (key = "permissions") then (VString "a,b,,c", true) else (VNil, false)
|}.

Definition job_with_permissions : job := {|
  Name := "deploy"; Description := ""; DisplayName := ""; TriggerRemotelyToken := "";
  Disabled := false; MasterMergeTriggering := false;
  Permissions := ["a"; "b"; ""; "c"]; Parameters := [];
  BranchPushTriggering := ∅; PrTriggeringGhpr := ∅; PrTriggeringGhIntegration := ∅;
  Jenkinsfile := ∅; Configuration := ∅
|}.

Definition raw_parameters : list Value :=
  [VMap {[ "type" := VString "string"; "name" := VString "BRANCH";
           "description" := VString "branch to build";
           "default" := VString "master" ]};
   VMap {[ "type" := VString "bool"; "name" := VString "DRY_RUN" ]}].

(** A resource with a name and two parameter records; the second has no
    [description] and no [default]. *)
Definition with_parameters : ResourceData := {|
  Get := fun key => if decide (key = "name") then VString "deploy" else VNil;
  GetOk := fun key =>
    if decide (key = "parameter") then (VList raw_parameters, true) else (VNil, false)
|}.

Definition job_with_parameters : job := {|
  Name := "deploy"; Description := ""; DisplayName := ""; TriggerRemotelyToken := "";
  Disabled := false; MasterMergeTriggering := false;
  Permissions := [];
  Parameters :=
    [ {[ "Type" := "string"; "Name" := "BRANCH"; "Description" := "branch to build";
         "Default" := "master" ]};
      {[ "Type" := "bool"; "Name" := "DRY_RUN" ]} ];
  BranchPushTriggering := ∅; PrTriggeringGhpr := ∅; PrTriggeringGhIntegration := ∅;
  Jenkinsfile := ∅; Configuration := ∅
|}.

(** A stand-in for the template engine: an unclosed action is a syntax
    error, a field the job does not have an execution error (after the text
    before it has been written), anything else is written as it is, after
    the name of the job. *)
Definition toy_engine : Engine := {|
  Template := string;
  Parse := fun text =>
    if decide (text = "<name>{{.Name</name>")
    then inr (Errorf "template: template:1: unclosed action")
    else inl text;
  Execute := fun tpl j =>
    if decide (tpl = "<name>{{.Nme}}</name>")
    then ("<name>", Some (Errorf "template: template:1:8: can't evaluate field Nme"))
    else (Name j +:+ tpl, None)
|}.

Definition unclosed : ConfigXMLTemplate :=
  {| source := ""; data := "<name>{{.Name</name>"; hash := "" |}.

(** ** Further predicates and samples *)

(** The position of the first [c] in [s], counting from [i]. *)
Fixpoint position (c : ascii) (s : string) (i : Z) : Z :=
  match s with
  | "" => i
  | String x t => if decide (x = c) then i else position c t (i + 1)
  end.

(** The value of a hexadecimal digit: its position in [hextable]. *)
Definition hex_value (c : ascii) : Z := position c Hex.hextable 0.

Definition nibbles (n : nat) : bool :=
  16 * hex_value (Hex.index (Z.shiftr (Z.of_nat n) 4))
  + hex_value (Hex.index (Z.land (Z.of_nat n) 0x0f)) =? Z.of_nat n.

(** The number of bytes of [s] equal to [c]. *)
Fixpoint count_char (c : ascii) (s : string) : nat :=
  match s with
  | "" => O
  | String x t => if decide (x = c) then S (count_char c t) else count_char c t
  end.


(** The keys [BindTo] reads as text, as booleans and as string maps, each
    with the slot of the job it fills. *)
Definition text_fields : list (string * (job -> string)) :=
  [("display_name", DisplayName); ("description", Description);
   ("trigger_remotely_token", TriggerRemotelyToken)].

Definition bool_fields : list (string * (job -> bool)) :=
  [("disabled", Disabled); ("master_merge_triggering", MasterMergeTriggering)].

Definition map_fields : list (string * (job -> gmap string string)) :=
  [("configuration", Configuration); ("pr_triggering_ghpr", PrTriggeringGhpr);
   ("pr_triggering_gh_integration", PrTriggeringGhIntegration);
   ("branch_push_triggering", BranchPushTriggering); ("jenkinsfile", Jenkinsfile)].

(** The sub-keys of a parameter record that [BindTo] looks up. *)
Definition sub_keys : list string := ["type"; "name"; "description"; "default"].

(** A world with one page on the network and nothing on the disk; a
    response is its body. *)
Definition one_page : World := {|
  Response := string;
  http_Get := fun url =>
    if decide (url = "https://ci.example.org/t.xml") then inl "<b/>"
    else inr (Errorf "no such host");
  ioutil_ReadAll := fun body => inl body;
  ioutil_ReadFile := fun _ => inr (Errorf "no such file or directory")
|}.

Definition page_xml : ConfigXMLTemplate :=
  {| source := "https://ci.example.org/t.xml"; data := "<b/>";
     hash := "0123456789abcdef0123456789abcdef" |}.

Definition inline_xml : ConfigXMLTemplate :=
  {| source := ""; data := "<project/>"; hash := "0123456789abcdef0123456789abcdef" |}.


(** A resource with scalar fields and a configuration. *)
Definition with_configuration : ResourceData := {|
  Get := fun key => if decide (key = "name") then VString "deploy" else VNil;
  GetOk := fun key =>
    if decide (key = "configuration")
    then (VMap {[ "keep" := VString "10"; "node" := VString "linux" ]}, true)
    else if decide (key = "description") then (VString "nightly build", true)
    else if decide (key = "disabled") then (VBool true, true)
    else (VNil, false)
|}.

Definition job_with_configuration : job := {|
  Name := "deploy"; Description := "nightly build"; DisplayName := "";
  TriggerRemotelyToken := "";
  Disabled := true; MasterMergeTriggering := false;
  Permissions := []; Parameters := [];
  BranchPushTriggering := ∅; PrTriggeringGhpr := ∅; PrTriggeringGhIntegration := ∅;
  Jenkinsfile := ∅;
  Configuration := {[ "keep" := "10"; "node" := "linux" ]}
|}.

(** A resource whose configuration holds a value that is not a string. *)
Definition with_bad_configuration : ResourceData := {|
  Get := fun key => if decide (key = "name") then VString "deploy" else VNil;
  GetOk := fun key =>
    if decide (key = "configuration")
    then (VMap {[ "keep" := VBool true ]}, true)
    else (VNil, false)
|}.

(** A resource whose second parameter record has a [default] that is not a
    string. *)
Definition with_bad_parameter : ResourceData := {|
  Get := fun key => if decide (key = "name") then VString "deploy" else VNil;
  GetOk := fun key =>
    if decide (key = "parameter")
    then (VList [VMap {[ "name" := VString "BRANCH" ]};
                 VMap {[ "name" := VString "DRY_RUN"; "default" := VBool false ]}], true)
    else (VNil, false)
|}.

Definition plain_xml : ConfigXMLTemplate :=
  {| source := ""; data := "<a/>"; hash := "" |}.

(** The resource data on which every type assertion of [BindTo] holds: the
    name is a string; a text field, a flag, the permissions, a map field or
    the parameter list, when set, is a string, a boolean, a string, a map of
    strings or a list of maps whose four sub-keys, where present, are
    strings. *)
Definition well_typed (d : ResourceData) : Prop :=
  (exists s, Get d "name" = VString s) /\
  (forall key slot v, (key, slot) ∈ text_fields -> GetOk d key = (v, true) ->
     exists s, v = VString s) /\
  (forall key slot v, (key, slot) ∈ bool_fields -> GetOk d key = (v, true) ->
     exists b, v = VBool b) /\
  (forall v, GetOk d "permissions" = (v, true) -> exists s, v = VString s) /\
  (forall key slot v, (key, slot) ∈ map_fields -> GetOk d key = (v, true) ->
     exists m : gmap string string, v = VMap (VString <$> m)) /\
  (forall v, GetOk d "parameter" = (v, true) ->
     exists l, v = VList l /\
       forall x, x ∈ l ->
         exists configRaw, x = VMap configRaw /\
           forall key y, key ∈ sub_keys -> configRaw !! key = Some y ->
             exists s, y = VString s).

(** Membership in a list that is written out. *)
Ltac in_list := apply list_elem_of_In; simpl; auto 8.

(** * Properties *)

(** ** The library functions on known inputs *)

Example extract_foo :
  extract "foo@deadbeefdeadbeefdeadbeefdeadbeef" = ("foo", "deadbeefdeadbeefdeadbeefdeadbeef").
Proof. vm_compute. reflexivity. Qed.

Example md5_empty : md5_hex "" = "d41d8cd98f00b204e9800998ecf8427e".
Proof. vm_compute. reflexivity. Qed.
Example md5_abc : md5_hex "abc" = "900150983cd24fb0d6963f7d28e17f72".
Proof. vm_compute. reflexivity. Qed.
Example md5_msg : md5_hex "message digest" = "f96b697d7cb7938d525a2f31aaf161d0".
Proof. vm_compute. reflexivity. Qed.
Example md5_x56 :
  md5_hex "xxxxxxxxxxxxxxxxxxxxxxxxxxxxxxxxxxxxxxxxxxxxxxxxxxxxxxxx"
  = "668a72d5ba17f08e62dabcafad6db14b".
Proof. vm_compute. reflexivity. Qed.

(** ** Strings *)

Section StringFacts.

Implicit Types (s t u : string) (c : ascii).

Lemma app_nil_s s : "" +:+ s = s.
Proof. reflexivity. Qed.

Lemma app_cons_s c s t : String c s +:+ t = String c (s +:+ t).
Proof. reflexivity. Qed.

Lemma app_s_nil s : s +:+ "" = s.
Proof. induction s as [|c s IH]; [done|]. by rewrite app_cons_s, IH. Qed.

Lemma app_assoc_s s t u : (s +:+ t) +:+ u = s +:+ (t +:+ u).
Proof. induction s as [|c s IH]; [done|]. by rewrite !app_cons_s, IH. Qed.

Lemma len_app s t : Strings.len (s +:+ t) = (Strings.len s + Strings.len t)%nat.
Proof.
  induction s as [|c s IH]; [done|].
  rewrite app_cons_s. unfold Strings.len in *. simpl. by rewrite IH.
Qed.

Lemma take_app s t : Strings.take (Strings.len s) (s +:+ t) = s.
Proof.
  induction s as [|c s IH]; [by destruct t|].
  rewrite app_cons_s. unfold Strings.len in *. simpl. by rewrite IH.
Qed.

Lemma drop_app s t : Strings.drop (Strings.len s) (s +:+ t) = t.
Proof.
  induction s as [|c s IH]; [by destruct t|].
  rewrite app_cons_s. unfold Strings.len in *. simpl. by rewrite IH.
Qed.

Lemma in_tails s t : In t (Strings.tails s) <-> exists p, s = p +:+ t.
Proof.
  split.
  - induction s as [|c s IH]; simpl.
    + intros [<-|[]]. by exists "".
    + intros [<-|Hin]; [by exists ""|].
      destruct (IH Hin) as [p ->]. by exists (String c p).
  - intros [p ->]. induction p as [|c p IH].
    + rewrite app_nil_s. destruct t; simpl; auto.
    + rewrite app_cons_s. simpl. auto.
Qed.

Lemma HasPrefix_app s t : Strings.HasPrefix (s +:+ t) s = true.
Proof.
  induction s as [|c s IH]; [by destruct t|].
  rewrite app_cons_s. simpl. by rewrite decide_True.
Qed.

Lemma HasPrefix_spec s p : Strings.HasPrefix s p = true <-> exists t, s = p +:+ t.
Proof.
  split.
  - revert s. induction p as [|c p IH]; intros s H.
    + by exists s.
    + destruct s as [|c' s]; [done|]. simpl in H.
      destruct (decide (c' = c)) as [->|]; [|done].
      destruct (IH _ H) as [t ->]. by exists t.
  - intros [t ->]. apply HasPrefix_app.
Qed.

Lemma all_ext (p q : ascii -> bool) s :
  (forall c, p c = q c) -> Strings.all p s = Strings.all q s.
Proof. intros E. induction s as [|c s IH]; [done|]. simpl. by rewrite E, IH. Qed.

End StringFacts.

(** ** The hash suffix of a reference *)

Section RegexpFacts.

Import Regexp.

Lemma in_class_lower_hex c : in_class lower_hex c = is_hex_digit c.
Proof. destruct c as [[] [] [] [] [] [] [] []]; reflexivity. Qed.

Lemma in_step p s s' :
  In s' (step p s) <-> exists c, s = String c s' /\ p c = true.
Proof.
  destruct s as [|c s]; simpl.
  - split; [done|]. by intros (c & ? & _).
  - destruct (p c) eqn:Hp; simpl.
    + split; [intros [<-|[]]; eauto|]. intros (c' & [= <- <-] & _). auto.
    + split; [done|]. intros (c' & [= <- <-] & ?). congruence.
Qed.

Lemma in_iter_step p n s s' :
  In s' (iter n (step p) s) <->
  exists h, s = h +:+ s' /\ Strings.len h = n /\ Strings.all p h = true.
Proof.
  revert s. induction n as [|n IH]; intros s; simpl.
  - split.
    + intros [<-|[]]. by exists "".
    + intros (h & -> & Hl & _). destruct h; [auto|done].
  - rewrite in_flat_map. split.
    + intros (t & Ht & Hin). apply in_step in Ht as (c & -> & Hc).
      apply IH in Hin as (h & -> & <- & Hall).
      exists (String c h). split; [done|]. split; [done|]. simpl. by rewrite Hc, Hall.
    + intros (h & -> & Hl & Hall). destruct h as [|c h]; [done|].
      simpl in Hall. apply andb_true_iff in Hall as [Hc Hall].
      exists (h +:+ s'). split.
      * apply in_step. exists c. by rewrite app_cons_s.
      * apply IH. exists h. split; [done|]. split; [|done].
        unfold Strings.len in *. simpl in Hl. lia.
Qed.

(** Every remainder of a starred expression is a suffix of the text. *)
Lemma in_star_suffix f fuel s s' :
  (forall a b, In b (f a) -> exists p, a = p +:+ b) ->
  In s' (star fuel f s) -> exists p, s = p +:+ s'.
Proof.
  intros Hf. revert s. induction fuel as [|k IH]; intros s; simpl.
  - intros [<-|[]]. by exists "".
  - intros [<-|Hin]; [by exists ""|].
    apply in_flat_map in Hin as (t & Ht & Hin).
    destruct (Strings.len t <? Strings.len s)%nat; [|done].
    destruct (Hf _ _ Ht) as [p1 ->]. destruct (IH _ Hin) as [p2 ->].
    exists (p1 +:+ p2). by rewrite app_assoc_s.
Qed.

Lemma in_star_zero f fuel s : In s (star fuel f s).
Proof. destruct fuel; simpl; auto. Qed.

(** What follows [.*] in the pattern: [@], 32 hex digits, end of text. *)
Lemma in_run_tail s s' :
  In s' (run (Cat (Lit "@") (Cat (Repeat 32 (Class lower_hex)) EndText)) s) <->
  s' = "" /\ exists h, s = "@" +:+ h /\ is_hash h.
Proof.
  simpl. rewrite in_flat_map. split.
  - intros (t & Ht & Hin). apply in_step in Ht as (c & -> & Hc).
    destruct (decide (c = "@"%char)) as [->|]; [|done].
    apply in_flat_map in Hin as (u & Hu & Hin).
    destruct u; simpl in Hin; [|done]. destruct Hin as [<-|[]].
    apply (in_iter_step (in_class lower_hex) 32) in Hu as (h & -> & Hl & Hall).
    split; [done|]. exists h. rewrite app_s_nil. split; [done|].
    split; [done|]. by rewrite <- (all_ext _ _ h in_class_lower_hex).
  - intros (-> & h & -> & Hl & Hall). exists h. split.
    + apply in_step. exists "@"%char. by rewrite decide_True.
    + apply in_flat_map. exists "". split; [|simpl; auto].
      apply (in_iter_step (in_class lower_hex) 32). exists h.
      rewrite app_s_nil. split; [done|]. split; [done|].
      by rewrite (all_ext _ _ h in_class_lower_hex).
Qed.

(** The pattern finds a match exactly in the references that end in [@]
    and a hash. *)
Lemma MatchString_re input :
  MatchString re input = true <-> ends_in_hash input.
Proof.
  unfold MatchString. rewrite existsb_exists. split.
  - intros (t & Ht & Hrun). apply in_tails in Ht as [p ->].
    destruct (run re t) as [|x l] eqn:Hr; [done|].
    assert (Hx : In x (run re t)) by (rewrite Hr; simpl; auto).
    unfold re in Hx. cbn [run] in Hx. apply in_flat_map in Hx as (u & Hu & Hx).
    apply in_star_suffix in Hu as [q ->].
    + apply (in_run_tail u x) in Hx as (_ & h & -> & Hh).
      exists (p +:+ q), h. by rewrite !app_assoc_s.
    + intros a b Hb. apply in_step in Hb as (c & -> & _). by exists (String c "").
  - intros (pre & h & -> & Hh). exists ("@" +:+ h). split.
    + apply in_tails. by exists pre.
    + assert (Hx : In "" (run re ("@" +:+ h))).
      { unfold re. cbn [run]. apply in_flat_map. exists ("@" +:+ h).
        split; [apply in_star_zero|]. apply (in_run_tail _ ""). eauto. }
      by destruct (run re ("@" +:+ h)).
Qed.

End RegexpFacts.

Lemma extract_hash pre h :
  is_hash h -> extract (pre +:+ "@" +:+ h) = (pre, h).
Proof.
  intros Hh. unfold extract.
  assert (Hm : Regexp.MatchString re (pre +:+ "@" +:+ h) = true)
    by (apply MatchString_re; by exists pre, h).
  rewrite Hm. destruct Hh as [Hl _].
  assert (Hlen : Strings.len (pre +:+ "@" +:+ h) = (Strings.len pre + 33)%nat).
  { rewrite !len_app, Hl. unfold Strings.len. simpl. lia. }
  rewrite Hlen. f_equal.
  - replace (Strings.len pre + 33 - 33)%nat with (Strings.len pre) by lia.
    apply take_app.
  - replace (Strings.len pre + 33 - 32)%nat with (Strings.len (pre +:+ "@")).
    + rewrite <- app_assoc_s. apply drop_app.
    + rewrite len_app. unfold Strings.len. simpl. lia.
Qed.

Lemma extract_plain input :
  ~ ends_in_hash input -> extract input = (input, "").
Proof.
  intros Hn. unfold extract.
  destruct (Regexp.MatchString re input) eqn:Hm; [|done].
  by apply MatchString_re in Hm.
Qed.

(** The template a resolution returns carries the recorded hash it was
    given. *)
Lemma resolve_hash w src recorded calls t err :
  resolve w src recorded = (calls, (Some t, err)) -> hash t = recorded.
Proof.
  unfold resolve. intros H.
  repeat match type of H with
         | context [if ?b then _ else _] => destruct b
         | context [match ?x with inl _ => _ | inr _ => _ end] => destruct x
         end; by simplify_eq.
Qed.

(** C1: a reference ends in [@] and 32 lowercase hexadecimal characters
    exactly when the constructor splits a recorded hash off it.  On such a
    reference the recorded hash is the final 32 characters and the candidate
    is the reference without its last 33 characters; on any other reference
    the recorded hash is empty and the whole reference is the candidate.  The
    candidate is what [NewConfigXMLTemplate] goes on to classify, the recorded
    hash what it stores in the template. *)
Theorem NewConfigXMLTemplate_splits_hash (w : World) (input : string) :
  (forall pre h, input = pre +:+ "@" +:+ h -> is_hash h ->
     Strings.take (Strings.len input - 33)%nat input = pre /\
     Strings.drop (Strings.len input - 32)%nat input = h /\
     extract input = (pre, h) /\
     NewConfigXMLTemplate w input = resolve w pre h) /\
  (~ ends_in_hash input ->
     extract input = (input, "") /\
     NewConfigXMLTemplate w input = resolve w input "") /\
  (forall calls t err,
     NewConfigXMLTemplate w input = (calls, (Some t, err)) ->
     hash t = (extract input).2).
Proof.
  split; [|split].
  - intros pre h -> Hh. pose proof (extract_hash pre h Hh) as He.
    assert (Hm : Regexp.MatchString re (pre +:+ "@" +:+ h) = true)
      by (apply MatchString_re; by exists pre, h).
    unfold NewConfigXMLTemplate. rewrite He.
    unfold extract in He. rewrite Hm in He. by simplify_eq.
  - intros Hn. unfold NewConfigXMLTemplate. by rewrite (extract_plain input Hn).
  - intros calls t err. unfold NewConfigXMLTemplate.
    destruct (extract input) as [src recorded]. apply resolve_hash.
Qed.

Example split_foo (w : World) :
  NewConfigXMLTemplate w "foo@deadbeefdeadbeefdeadbeefdeadbeef"
  = ([], (Some {| source := ""; data := "foo";
                  hash := "deadbeefdeadbeefdeadbeefdeadbeef" |}, None)).
Proof. reflexivity. Qed.

Example split_short_hash (w : World) :
  NewConfigXMLTemplate w "foo@deadbeef"
  = ([], (Some {| source := ""; data := "foo@deadbeef"; hash := "" |}, None)).
Proof. reflexivity. Qed.

Example split_upper_hash (w : World) :
  NewConfigXMLTemplate w "foo@DEADBEEFDEADBEEFDEADBEEFDEADBEEF"
  = ([], (Some {| source := ""; data := "foo@DEADBEEFDEADBEEFDEADBEEFDEADBEEF";
                  hash := "" |}, None)).
Proof. reflexivity. Qed.

(** ** Inline templates *)

(** C2: when the candidate left by the hash extraction starts with none of
    [http://], [https://] and [file://], the constructor returns a template
    with an empty [source] and the candidate itself as [data], and calls
    neither the HTTP client nor the file system. *)
Theorem NewConfigXMLTemplate_inline (w : World) (input : string) :
  Strings.HasPrefix (extract input).1 "http://" = false ->
  Strings.HasPrefix (extract input).1 "https://" = false ->
  Strings.HasPrefix (extract input).1 "file://" = false ->
  NewConfigXMLTemplate w input
  = ([], (Some {| source := ""; data := (extract input).1; hash := (extract input).2 |},
          None)).
Proof.
  unfold NewConfigXMLTemplate. destruct (extract input) as [src recorded].
  cbn [fst snd]. intros H1 H2 H3. unfold resolve. by rewrite H1, H2, H3.
Qed.

Lemma NewConfigXMLTemplate_inline_witness :
  NewConfigXMLTemplate offline "inline-body-text"
  = ([], (Some {| source := ""; data := "inline-body-text"; hash := "" |}, None)).
Proof.
  exact (NewConfigXMLTemplate_inline offline "inline-body-text" eq_refl eq_refl eq_refl).
Defined.

(** ** Template identity *)

Lemma GetTemplateID_located t :
  source t <> "" ->
  GetTemplateID (Some t) = (source t +:+ "@" +:+ (ComputedHash (Some t)).1, None).
Proof.
  unfold GetTemplateID. destruct (source t) as [|c s]; [by intros []|]. by intros _.
Qed.

(** C3: on a template that is not [nil], [GetTemplateID] returns the content
    when [source] is empty, and otherwise [source], an [@] and the computed
    hash of the content. *)
Theorem GetTemplateID_spec (t : ConfigXMLTemplate) :
  (source t = "" -> GetTemplateID (Some t) = (data t, None)) /\
  (source t <> "" ->
     GetTemplateID (Some t)
     = (source t +:+ "@" +:+ (ComputedHash (Some t)).1, None)).
Proof.
  split; [|apply GetTemplateID_located].
  intros Hs. unfold GetTemplateID. by rewrite Hs.
Qed.

Example GetTemplateID_inline :
  GetTemplateID (Some {| source := ""; data := "inline-body-text"; hash := "" |})
  = ("inline-body-text", None).
Proof. reflexivity. Qed.

Example GetTemplateID_file :
  GetTemplateID (Some {| source := "file:///tmp/t.xml"; data := "<a/>"; hash := "" |})
  = ("file:///tmp/t.xml@f019ee9a03978aff9f9b78d0ddf3edb7", None).
Proof. vm_compute. reflexivity. Qed.

(** ** The computed hash *)

Section DigestFacts.

Lemma le_bytes_length n x : length (MD5.le_bytes n x) = n.
Proof. revert x. induction n as [|n IH]; intros x; simpl; [done|]. by rewrite IH. Qed.

Lemma le_bytes_range n x : Forall is_byte (MD5.le_bytes n x).
Proof.
  revert x. induction n as [|n IH]; intros x; simpl; constructor; [|apply IH].
  unfold is_byte. change 255 with (Z.ones 8). rewrite Z.land_ones by lia.
  apply Z.mod_pos_bound. lia.
Qed.

(** [md5.Sum] returns a [[16]byte]. *)
Lemma Sum_length bs : length (MD5.Sum bs) = 16%nat.
Proof.
  unfold MD5.Sum. destruct (foldl _ _ _) as [a b c d].
  by rewrite !length_app, !le_bytes_length.
Qed.

Lemma Sum_range bs : Forall is_byte (MD5.Sum bs).
Proof.
  unfold MD5.Sum. destruct (foldl _ _ _) as [a b c d].
  repeat apply Forall_app_2; apply le_bytes_range.
Qed.

Lemma index_hex v :
  is_byte v ->
  is_hex_digit (Hex.index (Z.shiftr v 4)) = true /\
  is_hex_digit (Hex.index (Z.land v 0x0f)) = true.
Proof.
  intros [Hlo Hhi].
  assert (Hall : forallb hex_pair (seq 0 256) = true) by (vm_compute; reflexivity).
  rewrite forallb_forall in Hall. specialize (Hall (Z.to_nat v)).
  unfold hex_pair in Hall. rewrite Z2Nat.id in Hall by lia.
  apply andb_true_iff, Hall, in_seq. lia.
Qed.

Lemma EncodeToString_len bs :
  Strings.len (Hex.EncodeToString bs) = (2 * length bs)%nat.
Proof.
  induction bs as [|v bs IH]; [done|].
  unfold Strings.len in *. simpl. rewrite IH. lia.
Qed.

Lemma EncodeToString_hex bs :
  Forall is_byte bs -> Strings.all is_hex_digit (Hex.EncodeToString bs) = true.
Proof.
  induction 1 as [|v bs Hv _ IH]; [done|].
  destruct (index_hex v Hv) as [H1 H2].
  cbn [Hex.EncodeToString Strings.all]. by rewrite H1, H2, IH.
Qed.

Lemma lower_hex_digit c : is_hex_digit c = true -> Strings.lower c = c.
Proof. destruct c as [[] [] [] [] [] [] [] []]; by vm_compute. Qed.

(** Lower-casing leaves a string of lowercase hex digits as it is. *)
Lemma ToLower_hex s : Strings.all is_hex_digit s = true -> Strings.ToLower s = s.
Proof.
  induction s as [|c s IH]; [done|]. cbn [Strings.all Strings.ToLower].
  intros [Hc Hs]%andb_true_iff. by rewrite (lower_hex_digit c Hc), IH.
Qed.

Lemma md5_hex_is_hash s : is_hash (md5_hex s).
Proof.
  unfold md5_hex.
  pose proof (EncodeToString_hex _ (Sum_range (bytes_of s))) as Hhex.
  rewrite (ToLower_hex _ Hhex). split; [|done].
  by rewrite EncodeToString_len, Sum_length.
Qed.

End DigestFacts.

(** C4: the computed hash depends on the content of the template alone
    (equal contents, equal digests, whatever the other fields are); it is the
    hexadecimal rendering of the 16 bytes of the MD5 digest of the content,
    hence exactly 32 lowercase hexadecimal characters; and appended to any
    location after an [@] it is found by the pattern of the constructor. *)
Theorem ComputedHash_digest (t : ConfigXMLTemplate) :
  (forall t', data t' = data t -> ComputedHash (Some t') = ComputedHash (Some t)) /\
  (ComputedHash (Some t)).2 = None /\
  (ComputedHash (Some t)).1 = Hex.EncodeToString (MD5.Sum (bytes_of (data t))) /\
  length (MD5.Sum (bytes_of (data t))) = 16%nat /\
  Strings.len (ComputedHash (Some t)).1 = 32%nat /\
  Strings.all is_hex_digit (ComputedHash (Some t)).1 = true /\
  (forall location,
     Regexp.MatchString re (location +:+ "@" +:+ (ComputedHash (Some t)).1) = true).
Proof.
  destruct (md5_hex_is_hash (data t)) as [Hl Hh]. simpl.
  split; [by intros t' ->|]. split; [done|].
  split; [apply ToLower_hex, EncodeToString_hex, Sum_range|].
  split; [apply Sum_length|]. split; [done|]. split; [done|].
  intros location. apply MatchString_re. by exists location, (md5_hex (data t)).
Qed.

Example ComputedHash_file :
  ComputedHash (Some {| source := "file:///tmp/t.xml"; data := "<a/>"; hash := "" |})
  = ("f019ee9a03978aff9f9b78d0ddf3edb7", None).
Proof. vm_compute. reflexivity. Qed.

(** ** The [nil] template *)

(** C6: on a [nil] template each of [GetTemplateID], [RecordedHash],
    [ComputedHash] and [BindTo] returns the empty string together with the
    error "Invalid config.xml template object"; [BindTo] does so without
    parsing anything or reading the resource data, whatever they are. *)
Theorem nil_template_invalid_object :
  GetTemplateID None = ("", Some invalid_object) /\
  RecordedHash None = ("", Some invalid_object) /\
  ComputedHash None = ("", Some invalid_object) /\
  (forall eng d, BindTo eng None d = Returned ("", Some invalid_object)) /\
  Error invalid_object = "Invalid config.xml template object".
Proof. by repeat split. Qed.

(** ** The identity of a located template resolves to the same content *)

(** Resolving the same candidate with another recorded hash makes the same
    calls and returns the same template, but for its [hash]. *)
Lemma resolve_rehash w src r r' calls t :
  resolve w src r = (calls, (Some t, None)) ->
  resolve w src r'
  = (calls, (Some {| source := source t; data := data t; hash := r' |}, None)).
Proof.
  unfold resolve. intros H.
  repeat match type of H with
         | context [if ?b then _ else _] => destruct b
         | context [match ?x with inl _ => _ | inr _ => _ end] => destruct x
         end; by simplify_eq.
Qed.

(** A located template keeps the candidate as its [source]. *)
Lemma resolve_source w src r calls t err :
  resolve w src r = (calls, (Some t, err)) -> source t <> "" -> source t = src.
Proof.
  unfold resolve. intros H.
  repeat match type of H with
         | context [if ?b then _ else _] => destruct b
         | context [match ?x with inl _ => _ | inr _ => _ end] => destruct x
         end; by simplify_eq.
Qed.

(** C5: let [t] be a template the constructor returned, with a non-empty
    [source].  Resolving [GetTemplateID] of [t] in the same world succeeds,
    with the same calls, and returns a template whose recorded hash is the
    computed hash of [t] (the digest [GetTemplateID] wrote after the [@]),
    whose content is the content of [t] and whose [source] is that of [t]. *)
Theorem GetTemplateID_roundtrip (w : World) (input : string)
    (calls : list IOCall) (t : ConfigXMLTemplate) :
  NewConfigXMLTemplate w input = (calls, (Some t, None)) ->
  source t <> "" ->
  exists t',
    NewConfigXMLTemplate w (GetTemplateID (Some t)).1 = (calls, (Some t', None)) /\
    (GetTemplateID (Some t)).1 = source t +:+ "@" +:+ (ComputedHash (Some t)).1 /\
    RecordedHash (Some t') = ComputedHash (Some t) /\
    data t' = data t /\
    source t' = source t.
Proof.
  intros Hnew Hsrc.
  rewrite (GetTemplateID_located t Hsrc). simpl.
  unfold NewConfigXMLTemplate in *.
  rewrite (extract_hash _ _ (md5_hex_is_hash (data t))).
  destruct (extract input) as [src recorded].
  pose proof (resolve_source _ _ _ _ _ _ Hnew Hsrc) as Hs. subst src.
  eexists. split; [by apply (resolve_rehash _ _ _ _ _ _ Hnew)|]. done.
Qed.

Lemma GetTemplateID_roundtrip_witness :
  exists t',
    NewConfigXMLTemplate one_file (GetTemplateID (Some t_xml)).1
    = ([CallReadFile "/tmp/t.xml"], (Some t', None)) /\
    (GetTemplateID (Some t_xml)).1
    = source t_xml +:+ "@" +:+ (ComputedHash (Some t_xml)).1 /\
    RecordedHash (Some t') = ComputedHash (Some t_xml) /\
    data t' = data t_xml /\
    source t' = source t_xml.
Proof.
  apply (GetTemplateID_roundtrip one_file "file:///tmp/t.xml").
  - vm_compute. reflexivity.
  - vm_compute. discriminate.
Defined.

Example resolve_t_xml_id :
  NewConfigXMLTemplate one_file "file:///tmp/t.xml@f019ee9a03978aff9f9b78d0ddf3edb7"
  = ([CallReadFile "/tmp/t.xml"],
     (Some {| source := "file:///tmp/t.xml"; data := "<a/>";
              hash := "f019ee9a03978aff9f9b78d0ddf3edb7" |}, None)).
Proof. vm_compute. reflexivity. Qed.

(** ** The parameter adapter *)

(** [Adapt] returns a job exactly when every coercion succeeds, and the job
    holds the coerced values, each in its slot. *)
Lemma Adapt_Some d j :
  Adapt d = Some j <->
  as_string (Get d "name") = Some (Name j) /\
  field d "display_name" as_string "" = Some (DisplayName j) /\
  field d "description" as_string "" = Some (Description j) /\
  field d "trigger_remotely_token" as_string "" = Some (TriggerRemotelyToken j) /\
  field d "disabled" as_bool false = Some (Disabled j) /\
  field d "master_merge_triggering" as_bool false = Some (MasterMergeTriggering j) /\
  field d "permissions" split_permissions [] = Some (Permissions j) /\
  field d "configuration" string_map ∅ = Some (Configuration j) /\
  field d "pr_triggering_ghpr" string_map ∅ = Some (PrTriggeringGhpr j) /\
  field d "pr_triggering_gh_integration" string_map ∅ = Some (PrTriggeringGhIntegration j) /\
  field d "parameter" parameter_list [] = Some (Parameters j) /\
  field d "branch_push_triggering" string_map ∅ = Some (BranchPushTriggering j) /\
  field d "jenkinsfile" string_map ∅ = Some (Jenkinsfile j).
Proof.
  unfold Adapt. split.
  - intros H.
    repeat (apply bind_Some in H as (? & ? & H)).
    injection H as <-. simpl. by repeat split.
  - intros (H1 & H2 & H3 & H4 & H5 & H6 & H7 & H8 & H9 & H10 & H11 & H12 & H13).
    rewrite H1, H2, H3, H4, H5, H6, H7, H8, H9, H10, H11, H12, H13. simpl.
    by destruct j.
Qed.

Lemma append_all_app {A} (dst elems : list A) : append_all dst elems = dst ++ elems.
Proof.
  unfold append_all. revert dst. induction elems as [|v l IH]; intros dst; simpl.
  - by rewrite app_nil_r.
  - by rewrite IH, <- app_assoc.
Qed.

Section SplitFacts.

Lemma all_app p s t :
  Strings.all p (s +:+ t) = Strings.all p s && Strings.all p t.
Proof.
  induction s as [|c s IH]; [done|].
  rewrite app_cons_s. simpl. by rewrite IH, andb_assoc.
Qed.

Lemma split_go_comma_cons cur c t :
  Strings.split_go "," 0 cur (String c t)
  = if decide (c = ","%char) then cur :: Strings.split_go "," 0 "" t
    else Strings.split_go "," 0 (cur +:+ String c "") t.
Proof. simpl. by destruct (decide (c = ","%char)). Qed.

Lemma split_go_nonempty cur s : Strings.split_go "," 0 cur s <> [].
Proof.
  revert cur. induction s as [|c t IH]; intros cur; [done|].
  rewrite split_go_comma_cons. destruct (decide _); [done|apply IH].
Qed.

(** Joining the segments with commas gives the text back. *)
Lemma split_go_join cur s :
  String.concat "," (Strings.split_go "," 0 cur s) = cur +:+ s.
Proof.
  revert cur. induction s as [|c t IH]; intros cur.
  - simpl. by rewrite app_s_nil.
  - rewrite split_go_comma_cons. destruct (decide _) as [->|].
    + pose proof (split_go_nonempty "" t) as Hne. specialize (IH "").
      destruct (Strings.split_go "," 0 "" t) as [|x l]; [done|].
      cbn [String.concat]. cbn [String.concat] in IH. by rewrite IH.
    + by rewrite IH, app_assoc_s.
Qed.

Lemma split_go_comma_free cur s :
  comma_free cur -> Forall comma_free (Strings.split_go "," 0 cur s).
Proof.
  revert cur. induction s as [|c t IH]; intros cur Hcur.
  - by constructor.
  - rewrite split_go_comma_cons. destruct (decide _) as [->|Hc].
    + constructor; [done|]. by apply IH.
    + apply IH. unfold comma_free in *. rewrite all_app, Hcur. simpl.
      by rewrite decide_False.
Qed.

End SplitFacts.

(** C7: when [permissions] is set, to a string, the permissions of the job
    are that string split at its commas: joined again with commas the
    segments give the string back, in order, no segment holds a comma, and
    empty and repeated segments are kept; ["a,b,,c"] gives
    [["a"; "b"; ""; "c"]]. *)
Theorem permissions_split (d : ResourceData) (value : string) (j : job) :
  GetOk d "permissions" = (VString value, true) ->
  Adapt d = Some j ->
  Permissions j = Strings.Split value "," /\
  String.concat "," (Permissions j) = value /\
  Permissions j <> [] /\
  Forall comma_free (Permissions j) /\
  (value = "a,b,,c" -> Permissions j = ["a"; "b"; ""; "c"]).
Proof.
  intros Hok Hj. apply Adapt_Some in Hj.
  destruct Hj as (_ & _ & _ & _ & _ & _ & Hp & _).
  unfold field in Hp. rewrite Hok in Hp.
  change (Some (append_all [] (Strings.Split value ",")) = Some (Permissions j)) in Hp.
  rewrite append_all_app, app_nil_l in Hp. injection Hp as <-.
  unfold Strings.Split. split; [done|]. split; [apply split_go_join|].
  split; [apply split_go_nonempty|]. split; [by apply split_go_comma_free|].
  by intros ->.
Qed.

Lemma permissions_split_witness :
  Permissions job_with_permissions = Strings.Split "a,b,,c" "," /\
  String.concat "," (Permissions job_with_permissions) = "a,b,,c" /\
  Permissions job_with_permissions <> [] /\
  Forall comma_free (Permissions job_with_permissions) /\
  ("a,b,,c" = "a,b,,c" -> Permissions job_with_permissions = ["a"; "b"; ""; "c"]).
Proof.
  exact (permissions_split with_permissions "a,b,,c" job_with_permissions eq_refl eq_refl).
Defined.

Example split_duplicates : Strings.Split "x,x," "," = ["x"; "x"; ""].
Proof. reflexivity. Qed.

Example split_no_comma : Strings.Split "admin" "," = ["admin"].
Proof. reflexivity. Qed.

Example split_two_byte_separator : Strings.Split "a::b::c" "::" = ["a"; "b"; "c"].
Proof. reflexivity. Qed.

(** ** The records of the [parameter] list *)

Section ParameterFacts.

Lemma parameter_keys_elem k :
  k ∈ parameter_keys <->
  k = "Type" \/ k = "Name" \/ k = "Description" \/ k = "Default".
Proof. unfold parameter_keys. rewrite !elem_of_union, !elem_of_singleton. tauto. Qed.

Lemma copy_key_Some configRaw key Key config config' :
  copy_key configRaw key Key config = Some config' ->
  (configRaw !! key = None /\ config' = config) \/
  (exists s, configRaw !! key = Some (VString s) /\ config' = <[Key := s]> config).
Proof.
  unfold copy_key. destruct (configRaw !! key) as [x|]; [|left; by simplify_eq].
  destruct x; simpl; try done. intros [= <-]. right. eauto.
Qed.

Lemma copy_key_dom configRaw key Key config config' (keys : gset string) :
  copy_key configRaw key Key config = Some config' ->
  Key ∈ keys -> dom config ⊆ keys -> dom config' ⊆ keys.
Proof.
  intros H HK Hd. apply copy_key_Some in H as [[_ ->]|(s & _ & ->)]; [done|].
  rewrite dom_insert_L. apply union_least; [|done]. by apply singleton_subseteq_l.
Qed.

(** One record: the output holds, under the capitalized key, the text of
    every recognized sub-key that is present, and nothing else. *)
Lemma adapt_parameter_Some v config :
  adapt_parameter v = Some config ->
  exists configRaw,
    v = VMap configRaw /\
    (forall key Key, (key, Key) ∈ recognized ->
       VString <$> (config !! Key) = configRaw !! key) /\
    dom config ⊆ parameter_keys.
Proof.
  unfold adapt_parameter. intros H.
  apply bind_Some in H as (configRaw & Hv & H).
  destruct v; try done. simpl in Hv. injection Hv as ->.
  exists configRaw. split; [done|].
  apply bind_Some in H as (c1 & H1 & H).
  apply bind_Some in H as (c2 & H2 & H).
  apply bind_Some in H as (c3 & H3 & H4).
  split.
  - intros key Key Hin. unfold recognized in Hin.
    apply copy_key_Some in H1, H2, H3, H4.
    repeat (apply elem_of_cons in Hin as [Hin|Hin]; [injection Hin as -> ->|]);
      [..|by apply elem_of_nil in Hin];
      destruct H1 as [[E1 ->]|(s1 & E1 & ->)], H2 as [[E2 ->]|(s2 & E2 & ->)],
        H3 as [[E3 ->]|(s3 & E3 & ->)], H4 as [[E4 ->]|(s4 & E4 & ->)];
      by simplify_map_eq.
  - assert (K1 : "Type" ∈ parameter_keys) by (apply parameter_keys_elem; auto).
    assert (K2 : "Name" ∈ parameter_keys) by (apply parameter_keys_elem; auto).
    assert (K3 : "Description" ∈ parameter_keys) by (apply parameter_keys_elem; auto).
    assert (K4 : "Default" ∈ parameter_keys) by (apply parameter_keys_elem; auto).
    apply (copy_key_dom _ _ _ _ _ _ H4 K4), (copy_key_dom _ _ _ _ _ _ H3 K3),
      (copy_key_dom _ _ _ _ _ _ H2 K2), (copy_key_dom _ _ _ _ _ _ H1 K1).
    rewrite dom_empty_L. apply empty_subseteq.
Qed.

(** The loop keeps what was there and appends one record per element, in
    the order of the list. *)
Lemma adapt_parameters_Some dst rawValue out :
  adapt_parameters dst rawValue = Some out ->
  exists configs,
    out = dst ++ configs /\
    Forall2 (fun v config => adapt_parameter v = Some config) rawValue configs.
Proof.
  revert dst. induction rawValue as [|v rest IH]; intros dst; simpl.
  - intros [= <-]. exists []. by rewrite app_nil_r.
  - intros H. apply bind_Some in H as (config & Hc & H).
    apply IH in H as (configs & -> & Hall).
    exists (config :: configs). rewrite <- app_assoc. split; [done|].
    by constructor.
Qed.

Lemma Adapt_parameters d rawValue j :
  GetOk d "parameter" = (VList rawValue, true) ->
  Adapt d = Some j ->
  Forall2 (fun v config => adapt_parameter v = Some config) rawValue (Parameters j).
Proof.
  intros Hok Hj. apply Adapt_Some in Hj.
  destruct Hj as (_ & _ & _ & _ & _ & _ & _ & _ & _ & _ & Hp & _).
  unfold field in Hp. rewrite Hok in Hp.
  change (adapt_parameters [] rawValue = Some (Parameters j)) in Hp.
  by apply adapt_parameters_Some in Hp as (configs & -> & Hall).
Qed.

End ParameterFacts.

Example Adapt_with_parameters : Adapt with_parameters = Some job_with_parameters.
Proof. vm_compute. reflexivity. Qed.

(** C8: when [parameter] is set, to a list, the job has one parameter record
    per input record, in the order of the list; in each, a recognized sub-key
    that the input record holds is copied (its text is in the output record),
    and a recognized sub-key that the input record lacks has no entry in the
    output record: not even an empty string. *)
Theorem parameter_records (d : ResourceData) (rawValue : list Value) (j : job) :
  GetOk d "parameter" = (VList rawValue, true) ->
  Adapt d = Some j ->
  length (Parameters j) = length rawValue /\
  forall i v, rawValue !! i = Some v ->
    exists configRaw config,
      v = VMap configRaw /\
      Parameters j !! i = Some config /\
      forall key Key, (key, Key) ∈ recognized ->
        (forall x, configRaw !! key = Some x ->
           exists s, x = VString s /\ config !! Key = Some s) /\
        (configRaw !! key = None ->
           config !! Key = None /\ config !! Key <> Some "").
Proof.
  intros Hok Hj. pose proof (Adapt_parameters d rawValue j Hok Hj) as Hall.
  split; [symmetry; by eapply Forall2_length|].
  intros i v Hi.
  destruct (Forall2_lookup_l _ _ _ _ _ Hall Hi) as (config & Hc & Hv).
  apply adapt_parameter_Some in Hv as (configRaw & -> & Hkeys & _).
  exists configRaw, config. split; [done|]. split; [done|].
  intros key Key Hin. specialize (Hkeys key Key Hin).
  destruct (config !! Key) as [s|]; simpl in Hkeys; rewrite <- Hkeys.
  - split; [|done]. intros x [= <-]. eauto.
  - split; done.
Qed.

Lemma parameter_records_witness :
  length (Parameters job_with_parameters) = length raw_parameters /\
  forall i v, raw_parameters !! i = Some v ->
    exists configRaw config,
      v = VMap configRaw /\
      Parameters job_with_parameters !! i = Some config /\
      forall key Key, (key, Key) ∈ recognized ->
        (forall x, configRaw !! key = Some x ->
           exists s, x = VString s /\ config !! Key = Some s) /\
        (configRaw !! key = None ->
           config !! Key = None /\ config !! Key <> Some "").
Proof.
  apply (parameter_records with_parameters raw_parameters job_with_parameters).
  - reflexivity.
  - vm_compute. reflexivity.
Defined.

Example second_parameter_has_no_description :
  Parameters job_with_parameters !! 1%nat
  = Some ({[ "Type" := "bool"; "Name" := "DRY_RUN" ]} : gmap string string)
  /\ forall config, Parameters job_with_parameters !! 1%nat = Some config ->
       config !! "Description" = None /\ config !! "Default" = None.
Proof. split; [done|]. by intros config [= <-]. Qed.

(** C10: in every parameter record of the job the keys are among [Type],
    [Name], [Description] and [Default], and none is a lowercase input name;
    a sub-key [type], [name], [description] or [default] that the input
    record holds is stored under [Type], [Name], [Description] or [Default]. *)
Theorem parameter_keys_capitalized (d : ResourceData) (rawValue : list Value) (j : job) :
  GetOk d "parameter" = (VList rawValue, true) ->
  Adapt d = Some j ->
  Forall (fun config : gmap string string =>
            dom config ⊆ parameter_keys /\
            forall key Key, (key, Key) ∈ recognized -> config !! key = None)
         (Parameters j) /\
  forall i configRaw, rawValue !! i = Some (VMap configRaw) ->
    exists config,
      Parameters j !! i = Some config /\
      forall key Key s, (key, Key) ∈ recognized ->
        configRaw !! key = Some (VString s) -> config !! Key = Some s.
Proof.
  intros Hok Hj. pose proof (Adapt_parameters d rawValue j Hok Hj) as Hall.
  split.
  - apply Forall_forall. intros config Hin.
    apply list_elem_of_lookup in Hin as [i Hi].
    destruct (Forall2_lookup_r _ _ _ _ _ Hall Hi) as (v & _ & Hv).
    apply adapt_parameter_Some in Hv as (configRaw & _ & _ & Hdom).
    split; [done|]. intros key Key Hin. apply not_elem_of_dom.
    intros Hk. apply Hdom, parameter_keys_elem in Hk. unfold recognized in Hin.
    repeat (apply elem_of_cons in Hin as [Hin|Hin];
            [injection Hin as -> ->; by destruct Hk as [|[|[|]]]|]).
    by apply elem_of_nil in Hin.
  - intros i configRaw Hi.
    destruct (Forall2_lookup_l _ _ _ _ _ Hall Hi) as (config & Hc & Hv).
    apply adapt_parameter_Some in Hv as (configRaw' & [= <-] & Hkeys & _).
    exists config. split; [done|]. intros key Key s Hin Hs.
    specialize (Hkeys key Key Hin). rewrite Hs in Hkeys.
    destruct (config !! Key); simpl in Hkeys; by simplify_eq.
Qed.

Lemma parameter_keys_capitalized_witness :
  Forall (fun config : gmap string string =>
            dom config ⊆ parameter_keys /\
            forall key Key, (key, Key) ∈ recognized -> config !! key = None)
         (Parameters job_with_parameters) /\
  forall i configRaw, raw_parameters !! i = Some (VMap configRaw) ->
    exists config,
      Parameters job_with_parameters !! i = Some config /\
      forall key Key s, (key, Key) ∈ recognized ->
        configRaw !! key = Some (VString s) -> config !! Key = Some s.
Proof.
  apply (parameter_keys_capitalized with_parameters raw_parameters job_with_parameters).
  - reflexivity.
  - vm_compute. reflexivity.
Defined.

(** ** Rendering *)




Example BindTo_unclosed :
  BindTo toy_engine (Some unclosed) with_permissions
  = Returned ("", Some (Errorf "template: template:1: unclosed action")).
Proof. reflexivity. Qed.

Example BindTo_execution_error :
  BindTo toy_engine
    (Some {| source := ""; data := "<name>{{.Nme}}</name>"; hash := "" |}) with_permissions
  = Returned ("", Some (Errorf "template: template:1:8: can't evaluate field Nme")).
Proof. reflexivity. Qed.

(** A failed type assertion: [name] is not a string. *)
Example BindTo_panics :
  BindTo toy_engine (Some {| source := ""; data := "<a/>"; hash := "" |})
    {| Get := fun _ => VNil; GetOk := fun _ => (VNil, false) |}
  = Panicked.
Proof. reflexivity. Qed.

(** * Further properties of the constructor *)

Section ConstructorFacts.

Lemma is_hash_len h : is_hash h -> Strings.len h = 32%nat.
Proof. by intros [? _]. Qed.

(** What [extract] returns, by cases on the reference. *)
Lemma extract_cases input :
  (~ ends_in_hash input /\ Regexp.MatchString re input = false /\
   extract input = (input, "")) \/
  (exists pre h, is_hash h /\ input = pre +:+ "@" +:+ h /\
     Regexp.MatchString re input = true /\ extract input = (pre, h)).
Proof.
  destruct (Regexp.MatchString re input) eqn:Hm.
  - right. pose proof Hm as Hm'. apply MatchString_re in Hm' as (pre & h & -> & Hh).
    exists pre, h. by rewrite (extract_hash pre h Hh).
  - left. assert (Hn : ~ ends_in_hash input).
    { intros He. apply MatchString_re in He. congruence. }
    by rewrite (extract_plain input Hn).
Qed.

(** What [resolve] returns, by cases on the candidate. *)
Lemma resolve_cases w src recorded :
  (Strings.HasPrefix src "http://" || Strings.HasPrefix src "https://" = true /\
   ((exists err, http_Get w src = inr err /\
       resolve w src recorded = ([CallHttpGet src], (None, Some err))) \/
    (exists response err, http_Get w src = inl response /\
       ioutil_ReadAll w response = inr err /\
       resolve w src recorded = ([CallHttpGet src; CallReadAll src], (None, Some err))) \/
    (exists response body, http_Get w src = inl response /\
       ioutil_ReadAll w response = inl body /\
       resolve w src recorded
       = ([CallHttpGet src; CallReadAll src],
          (Some {| source := src; data := body; hash := recorded |}, None))))) \/
  (Strings.HasPrefix src "http://" || Strings.HasPrefix src "https://" = false /\
   Strings.HasPrefix src "file://" = true /\
   ((exists err, ioutil_ReadFile w (Strings.ReplaceFirst src "file://" "") = inr err /\
       resolve w src recorded
       = ([CallReadFile (Strings.ReplaceFirst src "file://" "")], (None, Some err))) \/
    (exists bytes, ioutil_ReadFile w (Strings.ReplaceFirst src "file://" "") = inl bytes /\
       resolve w src recorded
       = ([CallReadFile (Strings.ReplaceFirst src "file://" "")],
          (Some {| source := src; data := bytes; hash := recorded |}, None))))) \/
  (Strings.HasPrefix src "http://" || Strings.HasPrefix src "https://" = false /\
   Strings.HasPrefix src "file://" = false /\
   resolve w src recorded
   = ([], (Some {| source := ""; data := src; hash := recorded |}, None))).
Proof.
  unfold resolve.
  destruct (Strings.HasPrefix src "http://" || Strings.HasPrefix src "https://").
  - left. split; [done|].
    destruct (http_Get w src) as [response|err]; [|left; eauto].
    destruct (ioutil_ReadAll w response) as [body|err] eqn:Hr; right; [right|left]; eauto 6.
  - right. destruct (Strings.HasPrefix src "file://"); [left|right; done].
    split; [done|]. split; [done|].
    destruct (ioutil_ReadFile w _) as [bytes|err]; [right|left]; eauto.
Qed.

End ConstructorFacts.

(** X1: the extraction loses nothing.  Either the reference does not end in
    [@] and a hash, and it is returned whole with an empty recorded hash; or
    the recorded hash is 32 lowercase hexadecimal characters and the
    reference is the candidate, an [@] and the recorded hash. *)
Theorem extract_reassembles (input : string) :
  (~ ends_in_hash input /\ extract input = (input, "")) \/
  (is_hash (extract input).2 /\
   input = (extract input).1 +:+ "@" +:+ (extract input).2).
Proof.
  destruct (extract_cases input) as [(Hn & _ & He)|(pre & h & Hh & Hi & _ & He)].
  - by left.
  - right. by rewrite He.
Qed.

(** X2: the slice bounds of the extraction.  A reference that the pattern
    matches has at least 33 bytes, so that [len(input)-33] and
    [len(input)-32] are indices of it; the candidate is 33 bytes shorter
    than the reference and the recorded hash has 32 bytes.  A reference of
    fewer than 33 bytes is never split. *)
Theorem extract_bounds (input : string) :
  ((Strings.len input < 33)%nat -> extract input = (input, "")) /\
  (Regexp.MatchString re input = true ->
     (33 <= Strings.len input)%nat /\
     (Strings.len (extract input).1 + 33)%nat = Strings.len input /\
     Strings.len (extract input).2 = 32%nat).
Proof.
  destruct (extract_cases input) as [(Hn & Hm & He)|(pre & h & Hh & Hi & Hm & He)].
  - split; [done|]. by rewrite Hm.
  - assert (Hlen : Strings.len input = (Strings.len pre + 33)%nat).
    { rewrite Hi, !len_app, (is_hash_len h Hh). unfold Strings.len. simpl. lia. }
    split; [lia|]. intros _. rewrite He. simpl.
    split; [lia|]. split; [lia|]. by apply is_hash_len.
Qed.

(** X3: the recorded hash of a template that the constructor returns is
    empty or is 32 lowercase hexadecimal characters; it is empty exactly
    when the reference does not end in [@] and a hash. *)
Theorem recorded_hash_invariant (w : World) (input : string)
    (calls : list IOCall) (t : ConfigXMLTemplate) (err : option error) :
  NewConfigXMLTemplate w input = (calls, (Some t, err)) ->
  (hash t = "" \/ is_hash (hash t)) /\
  (hash t = "" <-> ~ ends_in_hash input) /\
  RecordedHash (Some t) = ((extract input).2, None).
Proof.
  unfold NewConfigXMLTemplate. intros H.
  destruct (extract_cases input) as [(Hn & _ & He)|(pre & h & Hh & Hi & _ & He)];
    rewrite He in H |- *; apply resolve_hash in H; simpl; rewrite H.
  - split; [by left|]. split; [done|done].
  - split; [by right|]. split; [|done]. split.
    + intros ->. by destruct Hh.
    + intros Hn. destruct Hn. by exists pre, h.
Qed.

Lemma recorded_hash_invariant_witness :
  (hash {| source := ""; data := "foo"; hash := "deadbeefdeadbeefdeadbeefdeadbeef" |} = "" \/
   is_hash (hash {| source := ""; data := "foo";
                    hash := "deadbeefdeadbeefdeadbeefdeadbeef" |})) /\
  (hash {| source := ""; data := "foo"; hash := "deadbeefdeadbeefdeadbeefdeadbeef" |} = ""
   <-> ~ ends_in_hash "foo@deadbeefdeadbeefdeadbeefdeadbeef") /\
  RecordedHash (Some {| source := ""; data := "foo";
                        hash := "deadbeefdeadbeefdeadbeefdeadbeef" |})
  = ((extract "foo@deadbeefdeadbeefdeadbeefdeadbeef").2, None).
Proof.
  exact (recorded_hash_invariant offline "foo@deadbeefdeadbeefdeadbeefdeadbeef" [] _ None
           eq_refl).
Defined.

(** X4: the constructor returns a template or an error, never both and never
    neither; an error comes from a collaborator, so at least one call was
    made, and no more than two calls are ever made. *)
Theorem NewConfigXMLTemplate_result (w : World) (input : string) :
  exists calls,
    (length calls <= 2)%nat /\
    ((exists t, NewConfigXMLTemplate w input = (calls, (Some t, None))) \/
     (exists err, NewConfigXMLTemplate w input = (calls, (None, Some err)) /\ calls <> [])).
Proof.
  unfold NewConfigXMLTemplate. destruct (extract input) as [src recorded].
  destruct (resolve_cases w src recorded)
    as [(_ & [(e & _ & ->)|[(r & e & _ & _ & ->)|(r & b & _ & _ & ->)]])
       |[(_ & _ & [(e & _ & ->)|(b & _ & ->)])|(_ & _ & ->)]];
    eexists; (split; [|first [left; by eexists | right; by eexists]]); simpl; lia.
Qed.

(** X5: the source of a template that the constructor returns is empty or
    starts with [http://], [https://] or [file://].  When it is empty the
    content is the candidate and no call was made; when it is not, it is
    the candidate. *)
Theorem source_invariant (w : World) (input : string)
    (calls : list IOCall) (t : ConfigXMLTemplate) (err : option error) :
  NewConfigXMLTemplate w input = (calls, (Some t, err)) ->
  (source t = "" /\ data t = (extract input).1 /\ calls = [] /\
   Strings.HasPrefix (data t) "http://" = false /\
   Strings.HasPrefix (data t) "https://" = false /\
   Strings.HasPrefix (data t) "file://" = false) \/
  (source t = (extract input).1 /\ calls <> [] /\
   (Strings.HasPrefix (source t) "http://" = true \/
    Strings.HasPrefix (source t) "https://" = true \/
    Strings.HasPrefix (source t) "file://" = true)).
Proof.
  unfold NewConfigXMLTemplate. destruct (extract input) as [src recorded]. cbn [fst snd].
  intros H.
  destruct (resolve_cases w src recorded)
    as [(Hp & [(e & _ & Hr)|[(r & e & _ & _ & Hr)|(r & b & _ & _ & Hr)]])
       |[(Hp & Hf & [(e & _ & Hr)|(b & _ & Hr)])|(Hp & Hf & Hr)]];
    rewrite Hr in H; simplify_eq; cbn [source data].
  - right. split; [done|]. split; [done|].
    apply orb_true_iff in Hp as [Hp|Hp]; auto.
  - right. split; [done|]. split; [done|]. auto.
  - left. apply orb_false_iff in Hp as [Hp1 Hp2]. done.
Qed.

Lemma source_invariant_witness :
  (source plain_xml = "" /\ data plain_xml = (extract "<a/>").1 /\ @nil IOCall = [] /\
   Strings.HasPrefix (data plain_xml) "http://" = false /\
   Strings.HasPrefix (data plain_xml) "https://" = false /\
   Strings.HasPrefix (data plain_xml) "file://" = false) \/
  (source plain_xml = (extract "<a/>").1 /\ @nil IOCall <> [] /\
   (Strings.HasPrefix (source plain_xml) "http://" = true \/
    Strings.HasPrefix (source plain_xml) "https://" = true \/
    Strings.HasPrefix (source plain_xml) "file://" = true)).
Proof. exact (source_invariant offline "<a/>" [] plain_xml None eq_refl). Defined.

(** ** The remote and the local branch *)

(** X6: a candidate that starts with [http://] or [https://] is fetched
    with [http.Get] at the candidate itself (the reference without its hash
    suffix).  A connection error is returned at once, without reading a
    body; a read error is returned after the two calls; otherwise the
    template holds the candidate as source, the body as content and the
    recorded hash.  The file system is not read in any of the three cases. *)
Theorem NewConfigXMLTemplate_remote (w : World) (input : string) :
  Strings.HasPrefix (extract input).1 "http://"
  || Strings.HasPrefix (extract input).1 "https://" = true ->
  (forall err, http_Get w (extract input).1 = inr err ->
     NewConfigXMLTemplate w input
     = ([CallHttpGet (extract input).1], (None, Some err))) /\
  (forall response err,
     http_Get w (extract input).1 = inl response ->
     ioutil_ReadAll w response = inr err ->
     NewConfigXMLTemplate w input
     = ([CallHttpGet (extract input).1; CallReadAll (extract input).1],
        (None, Some err))) /\
  (forall response body,
     http_Get w (extract input).1 = inl response ->
     ioutil_ReadAll w response = inl body ->
     NewConfigXMLTemplate w input
     = ([CallHttpGet (extract input).1; CallReadAll (extract input).1],
        (Some {| source := (extract input).1; data := body;
                 hash := (extract input).2 |}, None))).
Proof.
  unfold NewConfigXMLTemplate. destruct (extract input) as [src recorded]. cbn [fst snd].
  intros Hp. unfold resolve. rewrite Hp.
  split; [|split].
  - by intros err ->.
  - by intros response err -> ->.
  - by intros response body -> ->.
Qed.

Lemma NewConfigXMLTemplate_remote_witness :
  (forall err,
     http_Get one_page (extract "https://ci.example.org/t.xml").1 = inr err ->
     NewConfigXMLTemplate one_page "https://ci.example.org/t.xml"
     = ([CallHttpGet (extract "https://ci.example.org/t.xml").1], (None, Some err))) /\
  (forall response err,
     http_Get one_page (extract "https://ci.example.org/t.xml").1 = inl response ->
     ioutil_ReadAll one_page response = inr err ->
     NewConfigXMLTemplate one_page "https://ci.example.org/t.xml"
     = ([CallHttpGet (extract "https://ci.example.org/t.xml").1;
         CallReadAll (extract "https://ci.example.org/t.xml").1],
        (None, Some err))) /\
  (forall response body,
     http_Get one_page (extract "https://ci.example.org/t.xml").1 = inl response ->
     ioutil_ReadAll one_page response = inl body ->
     NewConfigXMLTemplate one_page "https://ci.example.org/t.xml"
     = ([CallHttpGet (extract "https://ci.example.org/t.xml").1;
         CallReadAll (extract "https://ci.example.org/t.xml").1],
        (Some {| source := (extract "https://ci.example.org/t.xml").1; data := body;
                 hash := (extract "https://ci.example.org/t.xml").2 |}, None))).
Proof.
  exact (NewConfigXMLTemplate_remote one_page "https://ci.example.org/t.xml" eq_refl).
Defined.

Example fetch_page_with_hash :
  NewConfigXMLTemplate one_page
    "https://ci.example.org/t.xml@0123456789abcdef0123456789abcdef"
  = ([CallHttpGet "https://ci.example.org/t.xml"; CallReadAll "https://ci.example.org/t.xml"],
     (Some page_xml, None)).
Proof. vm_compute. reflexivity. Qed.

Example fetch_unknown_host :
  NewConfigXMLTemplate one_page "http://nowhere/t.xml"
  = ([CallHttpGet "http://nowhere/t.xml"], (None, Some (Errorf "no such host"))).
Proof. vm_compute. reflexivity. Qed.

(** Removing the first [file://] of a text that starts with it leaves what
    follows the prefix, later occurrences included. *)
Lemma ReplaceFirst_file path :
  Strings.ReplaceFirst ("file://" +:+ path) "file://" "" = path.
Proof. reflexivity. Qed.

(** X7: a candidate [file://] followed by a path is read with
    [ioutil.ReadFile] at the path, the prefix removed once; the network is
    not used.  On success the template keeps the candidate with its prefix
    as source and holds the bytes of the file as content; a read error is
    returned with no template. *)
Theorem NewConfigXMLTemplate_file (w : World) (input path : string) :
  (extract input).1 = "file://" +:+ path ->
  (forall bytes, ioutil_ReadFile w path = inl bytes ->
     NewConfigXMLTemplate w input
     = ([CallReadFile path],
        (Some {| source := "file://" +:+ path; data := bytes;
                 hash := (extract input).2 |}, None))) /\
  (forall err, ioutil_ReadFile w path = inr err ->
     NewConfigXMLTemplate w input = ([CallReadFile path], (None, Some err))).
Proof.
  unfold NewConfigXMLTemplate. destruct (extract input) as [src recorded]. cbn [fst snd].
  intros ->. unfold resolve.
  replace (Strings.HasPrefix ("file://" +:+ path) "http://") with false by reflexivity.
  replace (Strings.HasPrefix ("file://" +:+ path) "https://") with false by reflexivity.
  rewrite HasPrefix_app, ReplaceFirst_file. cbn [orb].
  split.
  - by intros bytes ->.
  - by intros err ->.
Qed.

Lemma NewConfigXMLTemplate_file_witness :
  (forall bytes, ioutil_ReadFile one_file "/tmp/t.xml" = inl bytes ->
     NewConfigXMLTemplate one_file "file:///tmp/t.xml"
     = ([CallReadFile "/tmp/t.xml"],
        (Some {| source := "file://" +:+ "/tmp/t.xml"; data := bytes;
                 hash := (extract "file:///tmp/t.xml").2 |}, None))) /\
  (forall err, ioutil_ReadFile one_file "/tmp/t.xml" = inr err ->
     NewConfigXMLTemplate one_file "file:///tmp/t.xml"
     = ([CallReadFile "/tmp/t.xml"], (None, Some err))).
Proof.
  exact (NewConfigXMLTemplate_file one_file "file:///tmp/t.xml" "/tmp/t.xml" eq_refl).
Defined.

Example read_missing_file :
  NewConfigXMLTemplate one_file "file:///tmp/other.xml"
  = ([CallReadFile "/tmp/other.xml"],
     (None, Some (Errorf "no such file or directory"))).
Proof. vm_compute. reflexivity. Qed.

Example second_prefix_is_kept :
  Strings.ReplaceFirst "file:///a/file://b" "file://" "" = "/a/file://b".
Proof. reflexivity. Qed.

(** * Further properties of the identity *)

Section IdentityFacts.

(** Resolving the identity of a located template that the constructor
    returned. *)
Lemma reresolve w input calls t :
  NewConfigXMLTemplate w input = (calls, (Some t, None)) ->
  source t <> "" ->
  NewConfigXMLTemplate w (source t +:+ "@" +:+ md5_hex (data t))
  = (calls, (Some {| source := source t; data := data t; hash := md5_hex (data t) |},
             None)).
Proof.
  unfold NewConfigXMLTemplate. intros Hnew Hsrc.
  rewrite (extract_hash _ _ (md5_hex_is_hash (data t))).
  destruct (extract input) as [src recorded].
  pose proof (resolve_source _ _ _ _ _ _ Hnew Hsrc) as Hs. subst src.
  by apply (resolve_rehash _ _ _ _ _ _ Hnew).
Qed.

(** A located template that the constructor returned holds the candidate
    and the recorded hash of its reference. *)
Lemma located_fields w input calls t err :
  NewConfigXMLTemplate w input = (calls, (Some t, err)) ->
  source t <> "" ->
  source t = (extract input).1 /\ hash t = (extract input).2.
Proof.
  unfold NewConfigXMLTemplate. destruct (extract input) as [src recorded]. cbn [fst snd].
  intros H Hsrc. split; [by eapply resolve_source|by eapply resolve_hash].
Qed.

Lemma is_hash_nonempty h : is_hash h -> h <> "".
Proof. by intros [Hl _] ->. Qed.

End IdentityFacts.

(** X8: the identity is stable.  Let [t] be a located template that the
    constructor returned.  The template obtained by resolving the identity
    of [t] in the same world has the identity of [t] again, and its recorded
    hash is its computed hash. *)
Theorem identity_is_stable (w : World) (input : string)
    (calls : list IOCall) (t : ConfigXMLTemplate) :
  NewConfigXMLTemplate w input = (calls, (Some t, None)) ->
  source t <> "" ->
  exists t',
    NewConfigXMLTemplate w (GetTemplateID (Some t)).1 = (calls, (Some t', None)) /\
    GetTemplateID (Some t') = GetTemplateID (Some t) /\
    RecordedHash (Some t') = ComputedHash (Some t').
Proof.
  intros Hnew Hsrc. rewrite (GetTemplateID_located t Hsrc). cbn [fst ComputedHash].
  eexists. split; [by apply (reresolve w input)|].
  split; [|done]. by rewrite GetTemplateID_located.
Qed.

Lemma identity_is_stable_witness :
  exists t',
    NewConfigXMLTemplate one_page (GetTemplateID (Some page_xml)).1
    = ([CallHttpGet "https://ci.example.org/t.xml";
        CallReadAll "https://ci.example.org/t.xml"], (Some t', None)) /\
    GetTemplateID (Some t') = GetTemplateID (Some page_xml) /\
    RecordedHash (Some t') = ComputedHash (Some t').
Proof.
  apply (identity_is_stable one_page
           "https://ci.example.org/t.xml@0123456789abcdef0123456789abcdef").
  - vm_compute. reflexivity.
  - vm_compute. discriminate.
Defined.

(** X9: the identity of any template with a non-empty source ends in [@]
    and a hash: it is 33 bytes longer than the source, the pattern of the
    constructor matches it, and the extraction gives back the source and the
    computed hash. *)
Theorem identity_extracts (t : ConfigXMLTemplate) :
  source t <> "" ->
  Strings.len (GetTemplateID (Some t)).1 = (Strings.len (source t) + 33)%nat /\
  Regexp.MatchString re (GetTemplateID (Some t)).1 = true /\
  extract (GetTemplateID (Some t)).1 = (source t, (ComputedHash (Some t)).1).
Proof.
  intros Hsrc. rewrite (GetTemplateID_located t Hsrc). cbn [fst ComputedHash].
  pose proof (md5_hex_is_hash (data t)) as Hh.
  split; [|split].
  - rewrite !len_app, (is_hash_len _ Hh). unfold Strings.len. simpl. lia.
  - apply MatchString_re. by exists (source t), (md5_hex (data t)).
  - by apply extract_hash.
Qed.

Lemma identity_extracts_witness :
  Strings.len (GetTemplateID (Some t_xml)).1 = (Strings.len (source t_xml) + 33)%nat /\
  Regexp.MatchString re (GetTemplateID (Some t_xml)).1 = true /\
  extract (GetTemplateID (Some t_xml)).1 = (source t_xml, (ComputedHash (Some t_xml)).1).
Proof.
  apply (identity_extracts t_xml). vm_compute. discriminate.
Defined.

(** X10: the identity of an inline template that the constructor returned
    is its content, whatever hash was recorded.  When the content does not
    end in [@] and a hash, resolving the identity makes no call and returns
    the same content with an empty recorded hash; when the content is
    [pre], an [@] and a hash, the extraction splits it again and the
    candidate is [pre], not the content. *)
Theorem inline_identity (w : World) (input : string)
    (calls : list IOCall) (t : ConfigXMLTemplate) :
  NewConfigXMLTemplate w input = (calls, (Some t, None)) ->
  source t = "" ->
  GetTemplateID (Some t) = (data t, None) /\
  (~ ends_in_hash (data t) ->
     NewConfigXMLTemplate w (GetTemplateID (Some t)).1
     = ([], (Some {| source := ""; data := data t; hash := "" |}, None))) /\
  (forall pre h, data t = pre +:+ "@" +:+ h -> is_hash h ->
     extract (GetTemplateID (Some t)).1 = (pre, h)).
Proof.
  intros Hnew Hsrc.
  assert (Hid : GetTemplateID (Some t) = (data t, None))
    by (unfold GetTemplateID; by rewrite Hsrc).
  rewrite Hid. cbn [fst]. split; [done|]. split.
  - intros Hn. unfold NewConfigXMLTemplate in *. rewrite (extract_plain _ Hn).
    destruct (extract input) as [src recorded].
    destruct (resolve_cases w src recorded)
      as [(Hp & [(e & _ & Hr)|[(r & e & _ & _ & Hr)|(r & b & _ & _ & Hr)]])
         |[(Hp & Hf & [(e & _ & Hr)|(b & _ & Hr)])|(Hp & Hf & Hr)]];
      rewrite Hr in Hnew; simplify_eq; cbn [source data] in *.
    + by subst src.
    + by subst src.
    + unfold resolve. by rewrite Hp, Hf.
  - intros pre h -> Hh. by apply extract_hash.
Qed.

Lemma inline_identity_witness :
  GetTemplateID (Some inline_xml) = (data inline_xml, None) /\
  (~ ends_in_hash (data inline_xml) ->
     NewConfigXMLTemplate offline (GetTemplateID (Some inline_xml)).1
     = ([], (Some {| source := ""; data := data inline_xml; hash := "" |}, None))) /\
  (forall pre h, data inline_xml = pre +:+ "@" +:+ h -> is_hash h ->
     extract (GetTemplateID (Some inline_xml)).1 = (pre, h)).
Proof.
  exact (inline_identity offline "<project/>@0123456789abcdef0123456789abcdef" []
           inline_xml eq_refl eq_refl).
Defined.

Example inline_content_is_split_again :
  NewConfigXMLTemplate offline
    "foo@0123456789abcdef0123456789abcdef@deadbeefdeadbeefdeadbeefdeadbeef"
  = ([], (Some {| source := ""; data := "foo@0123456789abcdef0123456789abcdef";
                  hash := "deadbeefdeadbeefdeadbeefdeadbeef" |}, None))
  /\ NewConfigXMLTemplate offline "foo@0123456789abcdef0123456789abcdef"
     = ([], (Some {| source := ""; data := "foo";
                     hash := "0123456789abcdef0123456789abcdef" |}, None)).
Proof. split; vm_compute; reflexivity. Qed.

(** X11: the identity detects drift.  For a located template that the
    constructor returned, the identity is the reference it was made from
    exactly when the recorded hash is the computed hash of the content. *)
Theorem identity_detects_drift (w : World) (input : string)
    (calls : list IOCall) (t : ConfigXMLTemplate) :
  NewConfigXMLTemplate w input = (calls, (Some t, None)) ->
  source t <> "" ->
  (GetTemplateID (Some t)).1 = input <-> RecordedHash (Some t) = ComputedHash (Some t).
Proof.
  intros Hnew Hsrc. destruct (located_fields _ _ _ _ _ Hnew Hsrc) as [Hs Hh].
  rewrite (GetTemplateID_located t Hsrc). cbn [fst ComputedHash RecordedHash].
  pose proof (md5_hex_is_hash (data t)) as Hmd5.
  destruct (extract_cases input) as [(Hn & _ & He)|(pre & h & Hhh & Hi & _ & He)];
    rewrite He in Hs, Hh; cbn [fst snd] in Hs, Hh; rewrite Hs, Hh.
  - split.
    + intros Hid. destruct Hn. exists input, (md5_hex (data t)). by rewrite Hid.
    + intros [= Hempty]. by destruct (is_hash_nonempty _ Hmd5).
  - rewrite Hi. split.
    + intros Hid. apply (inj (String.append pre)) in Hid.
      apply (inj (String.append "@")) in Hid. by rewrite Hid.
    + by intros [= ->].
Qed.

Lemma identity_detects_drift_witness :
  (GetTemplateID (Some page_xml)).1
  = "https://ci.example.org/t.xml@0123456789abcdef0123456789abcdef"
  <-> RecordedHash (Some page_xml) = ComputedHash (Some page_xml).
Proof.
  apply (identity_detects_drift one_page
           "https://ci.example.org/t.xml@0123456789abcdef0123456789abcdef"
           [CallHttpGet "https://ci.example.org/t.xml";
            CallReadAll "https://ci.example.org/t.xml"]).
  - vm_compute. reflexivity.
  - vm_compute. discriminate.
Defined.

Example page_has_drifted :
  GetTemplateID (Some page_xml)
  = ("https://ci.example.org/t.xml@4bef37e9c66018d0a21cc9d17730e5d7", None).
Proof. vm_compute. reflexivity. Qed.

(** ** The hexadecimal rendering loses nothing *)

Section HexFacts.

Lemma nibbles_byte v :
  is_byte v ->
  16 * hex_value (Hex.index (Z.shiftr v 4)) + hex_value (Hex.index (Z.land v 0x0f)) = v.
Proof.
  intros [Hlo Hhi].
  assert (Hall : forallb nibbles (seq 0 256) = true) by (vm_compute; reflexivity).
  rewrite forallb_forall in Hall. specialize (Hall (Z.to_nat v)).
  unfold nibbles in Hall. rewrite Z2Nat.id in Hall by lia.
  apply Z.eqb_eq, Hall, in_seq. lia.
Qed.

Lemma EncodeToString_inj a b :
  Forall is_byte a -> Forall is_byte b ->
  Hex.EncodeToString a = Hex.EncodeToString b -> a = b.
Proof.
  intros Ha. revert b. induction Ha as [|x a Hx _ IH]; intros b Hb; destruct Hb as [|y b Hy Hb].
  - done.
  - done.
  - done.
  - cbn [Hex.EncodeToString]. intros [= H1 H2 H3]. f_equal; [|by apply IH].
    rewrite <- (nibbles_byte x Hx), <- (nibbles_byte y Hy). by rewrite H1, H2.
Qed.

Lemma md5_hex_unfold s : md5_hex s = Hex.EncodeToString (MD5.Sum (bytes_of s)).
Proof. apply ToLower_hex, EncodeToString_hex, Sum_range. Qed.

End HexFacts.

(** X12: two templates have the same computed hash exactly when the MD5
    digests of their contents are the same 16 bytes: the rendering in
    lowercase hexadecimal identifies no two digests. *)
Theorem ComputedHash_lossless (t1 t2 : ConfigXMLTemplate) :
  (ComputedHash (Some t1)).1 = (ComputedHash (Some t2)).1 <->
  MD5.Sum (bytes_of (data t1)) = MD5.Sum (bytes_of (data t2)).
Proof.
  cbn [ComputedHash fst]. rewrite !md5_hex_unfold. split.
  - apply EncodeToString_inj; apply Sum_range.
  - by intros ->.
Qed.

(** * Further properties of the adapter and of [BindTo] *)

Section AdapterFacts.

Lemma field_unset {A} d key (coerce : Value -> option A) dflt :
  (GetOk d key).2 = false -> field d key coerce dflt = Some dflt.
Proof. unfold field. destruct (GetOk d key) as [v ok]. simpl. by intros ->. Qed.

Lemma field_set {A} d key (coerce : Value -> option A) dflt v :
  GetOk d key = (v, true) -> field d key coerce dflt = coerce v.
Proof. unfold field. by intros ->. Qed.

(** The copy of a map of values: the map of their texts, or a panic at a
    value that is not a string. *)
Lemma copy_entries_spec (m : gmap string Value) :
  match copy_entries ∅ m with
  | Some m' => m = VString <$> m'
  | None => exists k v, m !! k = Some v /\ as_string v = None
  end.
Proof.
  unfold copy_entries.
  apply (map_fold_weak_ind
           (fun (r : option (gmap string string)) (m : gmap string Value) =>
              match r with
              | Some m' => m = VString <$> m'
              | None => exists k v, m !! k = Some v /\ as_string v = None
              end)).
  - by rewrite fmap_empty.
  - intros i x m0 r Hi Hr. destruct r as [m'|]; simpl.
    + destruct x; simpl; try (exists i; eexists; by rewrite lookup_insert_eq).
      by rewrite fmap_insert, Hr.
    + destruct Hr as (k & v & Hk & Hv). exists k, v. split; [|done].
      rewrite lookup_insert_ne; [done|]. intros ->. congruence.
Qed.

Lemma string_map_Some m m' :
  string_map (VMap m) = Some m' -> VString <$> m' = m.
Proof.
  unfold string_map. simpl. intros H.
  pose proof (copy_entries_spec m) as Hs. rewrite H in Hs. done.
Qed.

Lemma string_map_value m k v :
  m !! k = Some v -> as_string v = None -> string_map (VMap m) = None.
Proof.
  intros Hk Hv. destruct (string_map (VMap m)) as [m'|] eqn:H; [|done].
  apply string_map_Some in H. subst m. rewrite lookup_fmap in Hk.
  destruct (m' !! k); simpl in Hk; by simplify_eq.
Qed.

(** The slot of each map field, as [Adapt] fills it. *)
Lemma Adapt_map_field d j key slot :
  Adapt d = Some j -> (key, slot) ∈ map_fields ->
  field d key string_map ∅ = Some (slot j).
Proof.
  intros Hj Hin. apply Adapt_Some in Hj.
  destruct Hj as (_ & _ & _ & _ & _ & _ & _ & H1 & H2 & H3 & _ & H4 & H5).
  unfold map_fields in Hin.
  repeat (apply elem_of_cons in Hin as [Hin|Hin]; [by simplify_eq|]).
  by apply elem_of_nil in Hin.
Qed.

Lemma Adapt_text_field d j key slot :
  Adapt d = Some j -> (key, slot) ∈ text_fields ->
  field d key as_string "" = Some (slot j).
Proof.
  intros Hj Hin. apply Adapt_Some in Hj.
  destruct Hj as (_ & H1 & H2 & H3 & _).
  unfold text_fields in Hin.
  repeat (apply elem_of_cons in Hin as [Hin|Hin]; [by simplify_eq|]).
  by apply elem_of_nil in Hin.
Qed.

Lemma Adapt_bool_field d j key slot :
  Adapt d = Some j -> (key, slot) ∈ bool_fields ->
  field d key as_bool false = Some (slot j).
Proof.
  intros Hj Hin. apply Adapt_Some in Hj.
  destruct Hj as (_ & _ & _ & _ & H1 & H2 & _).
  unfold bool_fields in Hin.
  repeat (apply elem_of_cons in Hin as [Hin|Hin]; [by simplify_eq|]).
  by apply elem_of_nil in Hin.
Qed.

Lemma sub_key_recognized key :
  key ∈ sub_keys -> exists Key, (key, Key) ∈ recognized.
Proof.
  unfold sub_keys, recognized. intros Hin.
  apply elem_of_cons in Hin as [->|Hin]; [exists "Type"; apply list_elem_of_In; simpl; auto|].
  apply elem_of_cons in Hin as [->|Hin]; [exists "Name"; apply list_elem_of_In; simpl; auto|].
  apply elem_of_cons in Hin as [->|Hin];
    [exists "Description"; apply list_elem_of_In; simpl; auto|].
  apply elem_of_cons in Hin as [->|Hin];
    [exists "Default"; apply list_elem_of_In; simpl; auto 6|].
  by apply elem_of_nil in Hin.
Qed.

Lemma split_go_count cur s :
  length (Strings.split_go "," 0 cur s) = S (count_char "," s).
Proof.
  revert cur. induction s as [|c t IH]; intros cur; [done|].
  rewrite split_go_comma_cons. cbn [count_char].
  destruct (decide (c = ","%char)); simpl; by rewrite IH.
Qed.

End AdapterFacts.



(** X14: each of the five map fields ([configuration],
    [pr_triggering_ghpr], [pr_triggering_gh_integration],
    [branch_push_triggering], [jenkinsfile]), when set to a map, is copied
    entry by entry: the slot of the job has the keys of the map and, under
    each, the text of its value.  When the field is not set the slot is the
    empty map. *)
Theorem map_fields_copied (d : ResourceData) (j : job)
    (key : string) (slot : job -> gmap string string) :
  Adapt d = Some j ->
  (key, slot) ∈ map_fields ->
  (forall m, GetOk d key = (VMap m, true) ->
     VString <$> slot j = m /\
     forall k s, slot j !! k = Some s <-> m !! k = Some (VString s)) /\
  (forall v, GetOk d key = (v, false) -> slot j = ∅).
Proof.
  intros Hj Hin. pose proof (Adapt_map_field d j key slot Hj Hin) as Hf.
  split.
  - intros m Hok. rewrite (field_set _ _ _ _ _ Hok) in Hf.
    apply string_map_Some in Hf. split; [done|]. intros k s. rewrite <- Hf, lookup_fmap.
    destruct (slot j !! k); simpl; split; intros; by simplify_eq.
  - intros v Hok. rewrite field_unset in Hf by (by rewrite Hok). by simplify_eq.
Qed.

Lemma map_fields_copied_witness :
  (forall m, GetOk with_configuration "configuration" = (VMap m, true) ->
     VString <$> Configuration job_with_configuration = m /\
     forall k s, Configuration job_with_configuration !! k = Some s
                 <-> m !! k = Some (VString s)) /\
  (forall v, GetOk with_configuration "configuration" = (v, false) ->
     Configuration job_with_configuration = ∅).
Proof.
  apply (map_fields_copied with_configuration job_with_configuration
           "configuration" Configuration).
  - vm_compute. reflexivity.
  - apply list_elem_of_here.
Defined.

(** X15: a map field set to a map that holds one value that is not a string
    stops [BindTo] with a panic once the content has parsed: neither a
    document nor an error is returned, whatever the other fields are. *)
Theorem BindTo_panics_on_map_value (eng : Engine) (t : ConfigXMLTemplate)
    (d : ResourceData) (tpl : Template eng)
    (key : string) (slot : job -> gmap string string)
    (m : gmap string Value) (k : string) (v : Value) :
  Parse eng (data t) = inl tpl ->
  (key, slot) ∈ map_fields ->
  GetOk d key = (VMap m, true) ->
  m !! k = Some v ->
  as_string v = None ->
  Adapt d = None /\ BindTo eng (Some t) d = Panicked.
Proof.
  intros Hp Hin Hok Hk Hv.
  assert (Hnone : Adapt d = None).
  { destruct (Adapt d) as [j|] eqn:Hj; [|done].
    pose proof (Adapt_map_field d j key slot Hj Hin) as Hf.
    rewrite (field_set _ _ _ _ _ Hok), (string_map_value m k v Hk Hv) in Hf. done. }
  split; [done|]. unfold BindTo. by rewrite Hp, Hnone.
Qed.

Lemma BindTo_panics_on_map_value_witness :
  Adapt with_bad_configuration = None /\
  BindTo toy_engine (Some plain_xml) with_bad_configuration = Panicked.
Proof.
  apply (BindTo_panics_on_map_value toy_engine plain_xml with_bad_configuration "<a/>"
           "configuration" Configuration {[ "keep" := VBool true ]} "keep" (VBool true)).
  - reflexivity.
  - apply list_elem_of_here.
  - reflexivity.
  - reflexivity.
  - reflexivity.
Defined.

(** X16: the output parameter record depends on the four sub-keys [type],
    [name], [description] and [default] of the input record only: two input
    records that agree on these give the same output record, so any other
    sub-key is ignored, whatever its value and its type. *)
Theorem adapt_parameter_reads_sub_keys (configRaw configRaw' : gmap string Value) :
  (forall key, key ∈ sub_keys -> configRaw !! key = configRaw' !! key) ->
  adapt_parameter (VMap configRaw) = adapt_parameter (VMap configRaw').
Proof.
  intros H. unfold adapt_parameter, copy_key. cbn [as_map mbind option_bind].
  assert (K : forall key, In key sub_keys -> configRaw !! key = configRaw' !! key)
    by (intros key Hk; by apply H, list_elem_of_In).
  rewrite (K "type"), (K "name"), (K "description"), (K "default");
    [done|simpl; auto..].
Qed.

Lemma adapt_parameter_reads_sub_keys_witness :
  adapt_parameter (VMap {[ "name" := VString "BRANCH"; "choices" := VList [] ]})
  = adapt_parameter (VMap {[ "name" := VString "BRANCH" ]}).
Proof.
  apply adapt_parameter_reads_sub_keys.
  intros key Hin. unfold sub_keys in Hin.
  repeat (apply elem_of_cons in Hin as [->|Hin]; [reflexivity|]).
  by apply elem_of_nil in Hin.
Defined.

(** X17: an element of the [parameter] list that is not a map, or a record
    in which one of the four sub-keys holds a value that is not a string,
    stops [BindTo] with a panic once the content has parsed. *)
Theorem BindTo_panics_on_parameter (eng : Engine) (t : ConfigXMLTemplate)
    (d : ResourceData) (tpl : Template eng) (rawValue : list Value) (v : Value) :
  Parse eng (data t) = inl tpl ->
  GetOk d "parameter" = (VList rawValue, true) ->
  v ∈ rawValue ->
  (as_map v = None \/
   exists configRaw key x,
     v = VMap configRaw /\ key ∈ sub_keys /\
     configRaw !! key = Some x /\ as_string x = None) ->
  Adapt d = None /\ BindTo eng (Some t) d = Panicked.
Proof.
  intros Hp Hok Hin Hbad.
  assert (Hnone : Adapt d = None).
  { destruct (Adapt d) as [j|] eqn:Hj; [|done].
    pose proof (Adapt_parameters d rawValue j Hok Hj) as Hall.
    apply list_elem_of_lookup in Hin as [i Hi].
    destruct (Forall2_lookup_l _ _ _ _ _ Hall Hi) as (config & _ & Hv).
    apply adapt_parameter_Some in Hv as (configRaw & -> & Hkeys & _).
    destruct Hbad as [Hm|(configRaw' & key & x & [= <-] & Hkey & Hx & Hs)]; [done|].
    apply sub_key_recognized in Hkey as [Key HKey].
    specialize (Hkeys key Key HKey). rewrite Hx in Hkeys.
    destruct (config !! Key); simpl in Hkeys; by simplify_eq. }
  split; [done|]. unfold BindTo. by rewrite Hp, Hnone.
Qed.

Lemma BindTo_panics_on_parameter_witness :
  Adapt with_bad_parameter = None /\
  BindTo toy_engine (Some plain_xml) with_bad_parameter = Panicked.
Proof.
  apply (BindTo_panics_on_parameter toy_engine plain_xml with_bad_parameter "<a/>"
           [VMap {[ "name" := VString "BRANCH" ]};
            VMap {[ "name" := VString "DRY_RUN"; "default" := VBool false ]}]
           (VMap {[ "name" := VString "DRY_RUN"; "default" := VBool false ]})).
  - reflexivity.
  - reflexivity.
  - apply list_elem_of_further, list_elem_of_here.
  - right. exists {[ "name" := VString "DRY_RUN"; "default" := VBool false ]},
      "default", (VBool false).
    split; [reflexivity|]. split; [|split; reflexivity].
    apply list_elem_of_In. simpl. auto.
Defined.

(** X18: the scalar fields.  The name of the job is what [Get] gives for
    [name].  Each of [display_name], [description] and
    [trigger_remotely_token], when set, is copied to its slot, and leaves
    the empty text there when not set; each of [disabled] and
    [master_merge_triggering], when set, is copied to its slot, and leaves
    [false] there when not set. *)
Theorem scalar_fields_copied (d : ResourceData) (j : job) :
  Adapt d = Some j ->
  Get d "name" = VString (Name j) /\
  (forall key slot, (key, slot) ∈ text_fields ->
     (forall v, GetOk d key = (v, true) -> v = VString (slot j)) /\
     (forall v, GetOk d key = (v, false) -> slot j = "")) /\
  (forall key slot, (key, slot) ∈ bool_fields ->
     (forall v, GetOk d key = (v, true) -> v = VBool (slot j)) /\
     (forall v, GetOk d key = (v, false) -> slot j = false)).
Proof.
  intros Hj. split; [|split].
  - apply Adapt_Some in Hj as (Hn & _).
    destruct (Get d "name"); simpl in Hn; by simplify_eq.
  - intros key slot Hin. pose proof (Adapt_text_field d j key slot Hj Hin) as Hf.
    split; intros v Hok.
    + rewrite (field_set _ _ _ _ _ Hok) in Hf. destruct v; simpl in Hf; by simplify_eq.
    + rewrite field_unset in Hf by (by rewrite Hok). by simplify_eq.
  - intros key slot Hin. pose proof (Adapt_bool_field d j key slot Hj Hin) as Hf.
    split; intros v Hok.
    + rewrite (field_set _ _ _ _ _ Hok) in Hf. destruct v; simpl in Hf; by simplify_eq.
    + rewrite field_unset in Hf by (by rewrite Hok). by simplify_eq.
Qed.

Lemma scalar_fields_copied_witness :
  Get with_configuration "name" = VString (Name job_with_configuration) /\
  (forall key slot, (key, slot) ∈ text_fields ->
     (forall v, GetOk with_configuration key = (v, true) ->
        v = VString (slot job_with_configuration)) /\
     (forall v, GetOk with_configuration key = (v, false) ->
        slot job_with_configuration = "")) /\
  (forall key slot, (key, slot) ∈ bool_fields ->
     (forall v, GetOk with_configuration key = (v, true) ->
        v = VBool (slot job_with_configuration)) /\
     (forall v, GetOk with_configuration key = (v, false) ->
        slot job_with_configuration = false)).
Proof.
  apply (scalar_fields_copied with_configuration job_with_configuration).
  vm_compute. reflexivity.
Defined.

(** X19: when [permissions] is set to a string, the job has one permission
    more than the string has commas (so at least one, the empty one for an
    empty string); when it is not set, the job has no permission. *)
Theorem permissions_count (d : ResourceData) (j : job) :
  Adapt d = Some j ->
  (forall value, GetOk d "permissions" = (VString value, true) ->
     length (Permissions j) = S (count_char "," value)) /\
  (forall v, GetOk d "permissions" = (v, false) -> Permissions j = []).
Proof.
  intros Hj. apply Adapt_Some in Hj.
  destruct Hj as (_ & _ & _ & _ & _ & _ & Hp & _). split.
  - intros value Hok. rewrite (field_set _ _ _ _ _ Hok) in Hp.
    change (Some (append_all [] (Strings.Split value ",")) = Some (Permissions j)) in Hp.
    rewrite append_all_app, app_nil_l in Hp. injection Hp as <-.
    apply split_go_count.
  - intros v Hok. rewrite field_unset in Hp by (by rewrite Hok). by simplify_eq.
Qed.

Lemma permissions_count_witness :
  (forall value, GetOk with_permissions "permissions" = (VString value, true) ->
     length (Permissions job_with_permissions) = S (count_char "," value)) /\
  (forall v, GetOk with_permissions "permissions" = (v, false) ->
     Permissions job_with_permissions = []).
Proof.
  apply (permissions_count with_permissions job_with_permissions).
  vm_compute. reflexivity.
Defined.

(** X20: the outcomes of [BindTo], all of them.  With an error the text
    returned is empty; a text with no error is what the execution wrote,
    for a template that is not [nil], parsed, and a job that the adapter
    built; a panic happens only after the content has parsed, and only in
    the adapter. *)
Theorem BindTo_outcome_cases (eng : Engine) (c : option ConfigXMLTemplate)
    (d : ResourceData) :
  match BindTo eng c d with
  | Returned (text, Some err) =>
      text = "" /\
      (c = None \/
       (exists t, c = Some t /\ Parse eng (data t) = inr err) \/
       (exists t tpl j buf, c = Some t /\ Parse eng (data t) = inl tpl /\
          Adapt d = Some j /\ Execute eng tpl j = (buf, Some err)))
  | Returned (text, None) =>
      exists t tpl j, c = Some t /\ Parse eng (data t) = inl tpl /\
        Adapt d = Some j /\ Execute eng tpl j = (text, None)
  | Panicked =>
      exists t tpl, c = Some t /\ Parse eng (data t) = inl tpl /\ Adapt d = None
  end.
Proof.
  unfold BindTo. destruct c as [t|]; [|by auto].
  destruct (Parse eng (data t)) as [tpl|err] eqn:Hp; [|by eauto 6].
  destruct (Adapt d) as [j|] eqn:Hj; [|by eauto].
  destruct (Execute eng tpl j) as [buf [err|]] eqn:He.
  - split; [done|]. right. right. by exists t, tpl, j, buf.
  - by exists t, tpl, j.
Qed.

(** ** Resource data on which [BindTo] does not panic *)

Section WellTypedFacts.

Lemma string_map_fmap (m : gmap string string) :
  string_map (VMap (VString <$> m)) = Some m.
Proof.
  unfold string_map. cbn [as_map mbind option_bind].
  pose proof (copy_entries_spec (VString <$> m)) as Hs.
  destruct (copy_entries ∅ (VString <$> m)) as [m'|].
  - f_equal. apply map_eq. intros k.
    assert (Hk : VString <$> (m' !! k) = VString <$> (m !! k))
      by (rewrite <- !lookup_fmap; by rewrite Hs).
    destruct (m !! k), (m' !! k); simpl in Hk; by simplify_eq.
  - destruct Hs as (k & v & Hk & Hv). rewrite lookup_fmap in Hk.
    destruct (m !! k); simpl in Hk; by simplify_eq.
Qed.

Lemma field_is_Some {A} d key (coerce : Value -> option A) dflt :
  (forall v, GetOk d key = (v, true) -> is_Some (coerce v)) ->
  is_Some (field d key coerce dflt).
Proof.
  intros H. unfold field. destruct (GetOk d key) as [v [|]]; [by apply H|by eexists].
Qed.

Lemma field_Some_set {A} d key (coerce : Value -> option A) dflt a v :
  field d key coerce dflt = Some a -> GetOk d key = (v, true) -> coerce v = Some a.
Proof. intros H Hok. by rewrite (field_set _ _ _ _ _ Hok) in H. Qed.

Lemma copy_key_is_Some configRaw key Key config :
  (forall y, configRaw !! key = Some y -> exists s, y = VString s) ->
  is_Some (copy_key configRaw key Key config).
Proof.
  intros H. unfold copy_key. destruct (configRaw !! key) as [y|]; [|by eexists].
  destruct (H y eq_refl) as [s ->]. by eexists.
Qed.

Lemma adapt_parameter_is_Some configRaw :
  (forall key y, key ∈ sub_keys -> configRaw !! key = Some y -> exists s, y = VString s) ->
  is_Some (adapt_parameter (VMap configRaw)).
Proof.
  intros H. unfold adapt_parameter. cbn [as_map mbind option_bind].
  assert (K : forall key, In key sub_keys ->
                forall y, configRaw !! key = Some y -> exists s, y = VString s)
    by (intros key Hk y; by apply H, list_elem_of_In).
  destruct (copy_key_is_Some configRaw "type" "Type" ∅) as [c1 ->];
    [apply K; simpl; auto|]. cbn [mbind option_bind].
  destruct (copy_key_is_Some configRaw "name" "Name" c1) as [c2 ->];
    [apply K; simpl; auto|]. cbn [mbind option_bind].
  destruct (copy_key_is_Some configRaw "description" "Description" c2) as [c3 ->];
    [apply K; simpl; auto|]. cbn [mbind option_bind].
  apply copy_key_is_Some, K. simpl. auto.
Qed.

Lemma adapt_parameters_is_Some dst rawValue :
  (forall x, x ∈ rawValue -> is_Some (adapt_parameter x)) ->
  is_Some (adapt_parameters dst rawValue).
Proof.
  revert dst. induction rawValue as [|x rest IH]; intros dst H; simpl; [by eexists|].
  destruct (H x) as [config ->]; [apply list_elem_of_here|]. cbn [mbind option_bind].
  apply IH. intros y Hy. by apply H, list_elem_of_further.
Qed.

End WellTypedFacts.

Section WellTypedProof.

Lemma well_typed_Adapt d : well_typed d -> is_Some (Adapt d).
Proof.
  intros ([n Hn] & Ht & Hb & Hp & Hm & Hl). unfold Adapt. rewrite Hn.
  cbn [as_string mbind option_bind].
  assert (T : forall key slot, (key, slot) ∈ text_fields ->
                is_Some (field d key as_string "")).
  { intros key slot Hin. apply field_is_Some. intros v Hok.
    destruct (Ht key slot v Hin Hok) as [s ->]. by eexists. }
  assert (B : forall key slot, (key, slot) ∈ bool_fields ->
                is_Some (field d key as_bool false)).
  { intros key slot Hin. apply field_is_Some. intros v Hok.
    destruct (Hb key slot v Hin Hok) as [b ->]. by eexists. }
  assert (M : forall key slot, (key, slot) ∈ map_fields ->
                is_Some (field d key string_map ∅)).
  { intros key slot Hin. apply field_is_Some. intros v Hok.
    destruct (Hm key slot v Hin Hok) as [m ->]. rewrite string_map_fmap. by eexists. }
  assert (P : is_Some (field d "permissions" split_permissions [])).
  { apply field_is_Some. intros v Hok. destruct (Hp v Hok) as [s ->]. by eexists. }
  assert (L : is_Some (field d "parameter" parameter_list [])).
  { apply field_is_Some. intros v Hok. destruct (Hl v Hok) as (l & -> & Hall).
    unfold parameter_list. cbn [as_list mbind option_bind].
    apply adapt_parameters_is_Some. intros x Hx.
    destruct (Hall x Hx) as (configRaw & -> & Hkeys).
    by apply adapt_parameter_is_Some. }
  destruct (T "display_name" DisplayName) as [? ->]; [in_list|].
  destruct (T "description" Description) as [? ->]; [in_list|].
  destruct (T "trigger_remotely_token" TriggerRemotelyToken) as [? ->]; [in_list|].
  destruct (B "disabled" Disabled) as [? ->]; [in_list|].
  destruct (B "master_merge_triggering" MasterMergeTriggering) as [? ->]; [in_list|].
  destruct P as [? ->].
  destruct (M "configuration" Configuration) as [? ->]; [in_list|].
  destruct (M "pr_triggering_ghpr" PrTriggeringGhpr) as [? ->]; [in_list|].
  destruct (M "pr_triggering_gh_integration" PrTriggeringGhIntegration) as [? ->];
    [in_list|].
  destruct L as [? ->].
  destruct (M "branch_push_triggering" BranchPushTriggering) as [? ->]; [in_list|].
  destruct (M "jenkinsfile" Jenkinsfile) as [? ->]; [in_list|].
  cbn [mbind option_bind]. by eexists.
Qed.

Lemma Adapt_well_typed d j : Adapt d = Some j -> well_typed d.
Proof.
  intros Hj. pose proof Hj as Hall. apply Adapt_Some in Hall.
  destruct Hall as (Hn & _ & _ & _ & _ & _ & Hp & _ & _ & _ & Hl & _).
  split; [|split; [|split; [|split; [|split]]]].
  - destruct (Get d "name"); simpl in Hn; simplify_eq. by eexists.
  - intros key slot v Hin Hok.
    pose proof (field_Some_set _ _ _ _ _ _ (Adapt_text_field d j key slot Hj Hin) Hok) as H.
    destruct v; simpl in H; simplify_eq. by eexists.
  - intros key slot v Hin Hok.
    pose proof (field_Some_set _ _ _ _ _ _ (Adapt_bool_field d j key slot Hj Hin) Hok) as H.
    destruct v; simpl in H; simplify_eq. by eexists.
  - intros v Hok. pose proof (field_Some_set _ _ _ _ _ _ Hp Hok) as H.
    destruct v; simpl in H; simplify_eq. by eexists.
  - intros key slot v Hin Hok.
    pose proof (field_Some_set _ _ _ _ _ _ (Adapt_map_field d j key slot Hj Hin) Hok) as H.
    destruct v; try (simpl in H; by simplify_eq).
    apply string_map_Some in H. exists (slot j). by rewrite H.
  - intros v Hok. pose proof (field_Some_set _ _ _ _ _ _ Hl Hok) as H.
    destruct v; try (simpl in H; by simplify_eq).
    exists l. split; [done|]. unfold parameter_list in H. cbn [as_list mbind option_bind] in H.
    apply adapt_parameters_Some in H as (configs & _ & Hall).
    intros x Hx. apply list_elem_of_lookup in Hx as [i Hi].
    destruct (Forall2_lookup_l _ _ _ _ _ Hall Hi) as (config & _ & Hx).
    apply adapt_parameter_Some in Hx as (configRaw & -> & Hkeys & _).
    exists configRaw. split; [done|]. intros key y Hkey Hy.
    apply sub_key_recognized in Hkey as [Key HKey].
    specialize (Hkeys key Key HKey). rewrite Hy in Hkeys.
    destruct (config !! Key); simpl in Hkeys; simplify_eq. by eexists.
Qed.

End WellTypedProof.

(** X21: the adapter builds a job exactly on the resource data on which
    every type assertion holds; so, once the content has parsed, [BindTo]
    returns (a document or an error) on such data and panics on any other. *)
Theorem BindTo_returns_iff_well_typed (eng : Engine) (t : ConfigXMLTemplate)
    (d : ResourceData) :
  (well_typed d <-> exists j, Adapt d = Some j) /\
  (forall tpl, Parse eng (data t) = inl tpl ->
     (well_typed d <-> exists r, BindTo eng (Some t) d = Returned r) /\
     (~ well_typed d <-> BindTo eng (Some t) d = Panicked)).
Proof.
  assert (Hiff : well_typed d <-> exists j, Adapt d = Some j).
  { split; [by intros [j Hj]%well_typed_Adapt; exists j|].
    intros [j Hj]. by eapply Adapt_well_typed. }
  split; [done|]. intros tpl Hp. unfold BindTo. rewrite Hp, Hiff.
  destruct (Adapt d) as [j|].
  - split; split.
    + intros _. destruct (Execute eng tpl j) as [buf [err|]]; by eexists.
    + intros _. by exists j.
    + intros Hn. destruct Hn. by exists j.
    + by destruct (Execute eng tpl j) as [buf [err|]].
  - split; split.
    + by intros [j Hj].
    + by intros [r Hr].
    + done.
    + intros _ [j Hj]. done.
Qed.

Example with_permissions_is_well_typed : well_typed with_permissions.
Proof.
  apply (Adapt_well_typed with_permissions job_with_permissions). reflexivity.
Qed.

(** ** Identities told apart *)

Section DisjointFacts.

Lemma HasPrefix_app_l s x p :
  Strings.HasPrefix s p = true -> Strings.HasPrefix (s +:+ x) p = true.
Proof.
  intros [u ->]%HasPrefix_spec. apply HasPrefix_spec. exists (u +:+ x).
  by rewrite app_assoc_s.
Qed.

(** The content of an inline template that the constructor returned starts
    with no scheme; the source of a located one starts with a scheme. *)
Lemma constructed_scheme w input calls t err :
  NewConfigXMLTemplate w input = (calls, (Some t, err)) ->
  (source t = "" /\
   Strings.HasPrefix (data t) "http://" = false /\
   Strings.HasPrefix (data t) "https://" = false /\
   Strings.HasPrefix (data t) "file://" = false) \/
  (source t <> "" /\
   (Strings.HasPrefix (source t) "http://" = true \/
    Strings.HasPrefix (source t) "https://" = true \/
    Strings.HasPrefix (source t) "file://" = true)).
Proof.
  unfold NewConfigXMLTemplate. destruct (extract input) as [src recorded]. intros H.
  destruct (resolve_cases w src recorded)
    as [(Hp & [(e & _ & Hr)|[(r & e & _ & _ & Hr)|(r & b & _ & _ & Hr)]])
       |[(Hp & Hf & [(e & _ & Hr)|(b & _ & Hr)])|(Hp & Hf & Hr)]];
    rewrite Hr in H; simplify_eq; cbn [source data].
  - right. apply orb_true_iff in Hp. split; [by intros ->; destruct Hp|].
    destruct Hp; auto.
  - right. split; [by intros ->|]. auto.
  - left. apply orb_false_iff in Hp as [Hp1 Hp2]. done.
Qed.

End DisjointFacts.

(** X22: two templates with non-empty sources have the same identity
    exactly when they have the same source and the same computed hash. *)
Theorem located_identity_injective (t1 t2 : ConfigXMLTemplate) :
  source t1 <> "" ->
  source t2 <> "" ->
  GetTemplateID (Some t1) = GetTemplateID (Some t2) <->
  source t1 = source t2 /\ ComputedHash (Some t1) = ComputedHash (Some t2).
Proof.
  intros H1 H2. rewrite (GetTemplateID_located t1 H1), (GetTemplateID_located t2 H2).
  cbn [ComputedHash fst]. split.
  - intros [= Hid].
    pose proof (extract_hash (source t1) _ (md5_hex_is_hash (data t1))) as E1.
    pose proof (extract_hash (source t2) _ (md5_hex_is_hash (data t2))) as E2.
    rewrite Hid, E2 in E1. injection E1 as Ha Hb. by rewrite Ha, Hb.
  - intros [-> [= ->]]. done.
Qed.

Lemma located_identity_injective_witness :
  GetTemplateID (Some t_xml) = GetTemplateID (Some page_xml) <->
  source t_xml = source page_xml /\ ComputedHash (Some t_xml) = ComputedHash (Some page_xml).
Proof.
  apply (located_identity_injective t_xml page_xml); vm_compute; discriminate.
Defined.

(** X23: among the templates that the constructor returns, an inline one
    and a located one never have the same identity: the identity of the
    located one starts with one of the three schemes, with which the
    identity of the inline one (its content) does not start. *)
Theorem inline_and_located_identities_differ (w1 w2 : World) (input1 input2 : string)
    (calls1 calls2 : list IOCall) (t1 t2 : ConfigXMLTemplate) (err1 err2 : option error) :
  NewConfigXMLTemplate w1 input1 = (calls1, (Some t1, err1)) ->
  NewConfigXMLTemplate w2 input2 = (calls2, (Some t2, err2)) ->
  source t1 = "" ->
  source t2 <> "" ->
  exists scheme,
    In scheme ["http://"; "https://"; "file://"] /\
    Strings.HasPrefix (GetTemplateID (Some t2)).1 scheme = true /\
    Strings.HasPrefix (GetTemplateID (Some t1)).1 scheme = false /\
    (GetTemplateID (Some t1)).1 <> (GetTemplateID (Some t2)).1.
Proof.
  intros Hn1 Hn2 Hs1 Hs2.
  destruct (constructed_scheme _ _ _ _ _ Hn1) as [(_ & Ha & Hb & Hc)|[Hne _]]; [|done].
  destruct (constructed_scheme _ _ _ _ _ Hn2) as [[He _]|(_ & Hp)]; [done|].
  assert (Hid : GetTemplateID (Some t1) = (data t1, None))
    by (unfold GetTemplateID; by rewrite Hs1).
  rewrite (GetTemplateID_located t2 Hs2), Hid. cbn [fst].
  destruct Hp as [Hp|[Hp|Hp]];
    apply (HasPrefix_app_l _ ("@" +:+ (ComputedHash (Some t2)).1)) in Hp;
    [exists "http://"|exists "https://"|exists "file://"];
    (split; [simpl; auto|]); (split; [done|]); (split; [done|]);
    intros Heq; rewrite Heq in Ha, Hb, Hc; congruence.
Qed.

Lemma inline_and_located_identities_differ_witness :
  exists scheme,
    In scheme ["http://"; "https://"; "file://"] /\
    Strings.HasPrefix (GetTemplateID (Some t_xml)).1 scheme = true /\
    Strings.HasPrefix (GetTemplateID (Some plain_xml)).1 scheme = false /\
    (GetTemplateID (Some plain_xml)).1 <> (GetTemplateID (Some t_xml)).1.
Proof.
  apply (inline_and_located_identities_differ offline one_file "<a/>" "file:///tmp/t.xml"
           [] [CallReadFile "/tmp/t.xml"] plain_xml t_xml None None).
  - reflexivity.
  - vm_compute. reflexivity.
  - reflexivity.
  - vm_compute. discriminate.
Defined.
